(** * The Matter glue of the light example: [examples/light/main/app_matter.cpp]

    A shallow embedding of the attribute dispatcher, the state reporters and
    the stack bring-up sequence, followed by the properties proved of them.

    Every call that leaves the file (logging, the light driver, the ZCL
    attribute store, the CHIP platform managers) is recorded in a trace of
    [effect]s; what such a call returns is supplied by a [world].  A failed
    [assert] ends the run with [Aborted]. *)

From Stdlib Require Import ZArith List String Bool Lia.
Import ListNotations.
Local Open Scope Z_scope.

(** ** Fixed-width integers *)

Definition to_uint8 (x : Z) : Z := x mod 2 ^ 8.
Definition to_uint16 (x : Z) : Z := x mod 2 ^ 16.
Definition to_uint32 (x : Z) : Z := x mod 2 ^ 32.

Definition UINT16_MAX : Z := 2 ^ 16 - 1.
Definition UINT32_MAX : Z := 2 ^ 32 - 1.

(** ** Constants of the SDK headers the file includes

    ESP-IDF and the CHIP SDK are outside the repository; the values are the
    ones their headers publish. *)

Module Esp.
(** [esp_err.h] of ESP-IDF. *)
Definition esp_err_t := Z.
Definition ESP_OK : esp_err_t := 0.
Definition ESP_FAIL : esp_err_t := -1.
Definition ESP_ERR_NO_MEM : esp_err_t := 0x101.

Inductive esp_log_level_t := ESP_LOG_ERROR | ESP_LOG_WARN | ESP_LOG_INFO.
End Esp.
Export Esp.

Module Zcl.
(** [core/CHIPError.h]. *)
Definition CHIP_ERROR := Z.
Definition CHIP_NO_ERROR : CHIP_ERROR := 0.

(** [app/common/gen/cluster-id.h]. *)
Definition ZCL_ON_OFF_CLUSTER_ID : Z := 0x0006.
Definition ZCL_LEVEL_CONTROL_CLUSTER_ID : Z := 0x0008.
Definition ZCL_COLOR_CONTROL_CLUSTER_ID : Z := 0x0300.

(** [app/common/gen/attribute-id.h]. *)
Definition ZCL_ON_OFF_ATTRIBUTE_ID : Z := 0x0000.
Definition ZCL_CURRENT_LEVEL_ATTRIBUTE_ID : Z := 0x0000.
Definition ZCL_COLOR_CONTROL_CURRENT_HUE_ATTRIBUTE_ID : Z := 0x0000.
Definition ZCL_COLOR_CONTROL_CURRENT_SATURATION_ATTRIBUTE_ID : Z := 0x0001.
Definition ZCL_COLOR_CONTROL_COLOR_TEMPERATURE_ATTRIBUTE_ID : Z := 0x0007.

(** [app/common/gen/attribute-type.h], [att-storage.h], [af.h]. *)
Definition ZCL_BOOLEAN_ATTRIBUTE_TYPE : Z := 0x10.
Definition ZCL_INT8U_ATTRIBUTE_TYPE : Z := 0x20.
Definition ZCL_INT16U_ATTRIBUTE_TYPE : Z := 0x21.
Definition CLUSTER_MASK_SERVER : Z := 0x40.
Definition EmberAfStatus := Z.
Definition EMBER_ZCL_STATUS_SUCCESS : EmberAfStatus := 0x00.
End Zcl.
Export Zcl.

(** ** [app_constants.h] and [app_driver.h] *)

(** Modelled from the spec: the range constants of [app_constants.h], which
    is not among the sources.  The spec fixes them: "hue wire range max 254,
    local degree max 359; saturation wire range max 254, local percent max
    100". *)
Definition HUE_MAX : Z := 359.
Definition HUE_ATTRIBUTE_MAX : Z := 254.
Definition SATURATION_MAX : Z := 100.
Definition SATURATION_ATTRIBUTE_MAX : Z := 254.

(** Modelled from the spec: the macro [REMAP_TO_RANGE] of [app_constants.h],
    which is not among the sources.  The spec gives it as
    [remap(value, fromMax, toMax) = round(value * toMax / fromMax)], a linear
    rescale between two integer ranges starting at 0.  [round] is the nearest
    integer, a half going up. *)
Definition REMAP_TO_RANGE (value from to : Z) : Z :=
  (2 * (value * to) + from) / (2 * from).

(** Modelled from the spec: the source tags of [app_driver.h], which is not
    among the sources.  The spec tells a change that "originated from the
    protocol layer" from the other sources. *)
Inductive app_driver_src_t := APP_DRIVER_SRC_LOCAL | APP_DRIVER_SRC_MATTER.

(** ** Effects *)

(** The five entry points of the light driver, with the argument as the
    caller passes it. *)
Inductive driver_call :=
| app_driver_update_and_report_power (power : Z) (src : app_driver_src_t)
| app_driver_update_and_report_brightness (brightness : Z) (src : app_driver_src_t)
| app_driver_update_and_report_hue (hue : Z) (src : app_driver_src_t)
| app_driver_update_and_report_saturation (saturation : Z) (src : app_driver_src_t)
| app_driver_update_and_report_temperature (temperature : Z) (src : app_driver_src_t).

(** The functions of this file that are handed out as callbacks. *)
Inductive callback :=
| cb_update_matter_power
| cb_update_matter_brightness
| cb_update_matter_hue
| cb_update_matter_saturation
| cb_update_matter_temperature
| cb_on_device_event.

Record app_driver_param_callback_t := {
  update_power : callback;
  update_brightness : callback;
  update_hue : callback;
  update_saturation : callback;
  update_temperature : callback
}.

(** Calls into the CHIP platform layer and the driver registry. *)
Inductive stack_call :=
| InitChipStack
| SetBLEAdvertisingEnabled (val : bool)
| MemoryInit
| StartEventLoopTask
| MemoryShutdown
| AddEventHandler (handler : callback) (arg : Z)
| InitThreadStack
| StartThreadTask
| InitServer
| app_driver_register_src (src : app_driver_src_t) (callbacks : app_driver_param_callback_t).

Inductive effect :=
| ESP_LOG (level : esp_log_level_t) (format : string) (args : list Z)
| Driver (c : driver_call)
| ReadServerAttribute (endpoint cluster attribute readLength : Z)
| WriteAttribute (endpoint cluster attribute mask data dataType : Z)
| Stack (c : stack_call).

Definition trace := list effect.

(** What the outside answers.  A read of the attribute store that succeeds
    gives [Some] of the stored value and fills the caller's buffer with it; a
    read that does not gives [None] and leaves the buffer as it was. *)
Record world := {
  PlatformMgr_InitChipStack : CHIP_ERROR;
  Platform_MemoryInit : CHIP_ERROR;
  PlatformMgr_StartEventLoopTask : CHIP_ERROR;
  ThreadStackMgr_InitThreadStack : CHIP_ERROR;
  ThreadStackMgr_StartThreadTask : CHIP_ERROR;
  attribute_store : Z -> Z -> Z -> option Z;
  write_status : Z -> Z -> Z -> Z -> Z -> Z -> EmberAfStatus;
  (** the content of a local that was declared without an initialiser *)
  uninitialized_uint16 : Z
}.

(** ** The monad: a trace and an outcome *)

Inductive outcome (A : Type) :=
| Returned (a : A)
| Aborted.
Arguments Returned {A} a.
Arguments Aborted {A}.

Definition M (A : Type) : Type := (trace * outcome A)%type.

Definition ret {A} (a : A) : M A := ([], Returned a).

Definition bind {A B} (m : M A) (k : A -> M B) : M B :=
  match m with
  | (t, Returned a) => let (t', r) := k a in (t ++ t', r)
  | (t, Aborted) => (t, Aborted)
  end.

Declare Scope m_scope.
Delimit Scope m_scope with M.
Notation "x <- m ;; k" := (bind m (fun x => k))
  (at level 61, m at next level, right associativity) : m_scope.
Notation "m ;; k" := (bind m (fun _ => k))
  (at level 61, right associativity) : m_scope.
Local Open Scope m_scope.

Definition emit (e : effect) : M unit := ([e], Returned tt).

Definition assert (b : bool) : M unit :=
  if b then ret tt else ([], Aborted).

Definition events {A} (m : M A) : trace := fst m.
Definition result {A} (m : M A) : outcome A := snd m.

(** ** Calls that leave the file *)

(** The log macros; their tag, always [APP_LOG_TAG], is left out. *)

Definition ESP_LOGE (format : string) (args : list Z) : M unit :=
  emit (ESP_LOG ESP_LOG_ERROR format args).
Definition ESP_LOGW (format : string) (args : list Z) : M unit :=
  emit (ESP_LOG ESP_LOG_WARN format args).
Definition ESP_LOGI (format : string) (args : list Z) : M unit :=
  emit (ESP_LOG ESP_LOG_INFO format args).

Definition driver (c : driver_call) : M unit := emit (Driver c).

(** [emberAfReadServerAttribute(endpoint, cluster, attribute, &buf, len)]:
    the content of [buf] after the call. *)
Definition emberAfReadServerAttribute (w : world)
    (endpoint cluster attribute buf readLength : Z) : M Z :=
  emit (ReadServerAttribute endpoint cluster attribute readLength) ;;
  ret (match attribute_store w endpoint cluster attribute with
       | Some v => v
       | None => buf
       end).

Definition emberAfWriteAttribute (w : world)
    (endpoint cluster attribute mask data dataType : Z) : M EmberAfStatus :=
  emit (WriteAttribute endpoint cluster attribute mask data dataType) ;;
  ret (write_status w endpoint cluster attribute mask data dataType).

Definition platform (c : stack_call) (answer : CHIP_ERROR) : M CHIP_ERROR :=
  emit (Stack c) ;; ret answer.

(** ** The inbound dispatcher *)

(** A [uint8_t *]: the byte it points at and the bytes after it. *)
Definition byte_ptr := (Z * list Z)%type.
Definition deref (p : byte_ptr) : Z := fst p.

Definition on_on_off_attribute_changed
    (endpoint attribute : Z) (value : byte_ptr) (size : Z) : M unit :=
  if attribute =? ZCL_ON_OFF_ATTRIBUTE_ID then
    driver (app_driver_update_and_report_power (deref value) APP_DRIVER_SRC_MATTER)
  else
    ESP_LOGW "Unknown attribute in OnOff cluster: %d" [attribute].

Definition on_level_control_atrribute_changed
    (endpoint attribute : Z) (value : byte_ptr) (size : Z) : M unit :=
  if attribute =? ZCL_CURRENT_LEVEL_ATTRIBUTE_ID then
    driver (app_driver_update_and_report_brightness (deref value) APP_DRIVER_SRC_MATTER)
  else
    ESP_LOGW "Unknown attribute in level control cluster: %d" [attribute].

Definition on_color_control_attribute_changed (w : world)
    (endpoint attribute : Z) (value : byte_ptr) (size : Z) : M unit :=
  if attribute =? ZCL_COLOR_CONTROL_CURRENT_HUE_ATTRIBUTE_ID then
    let hue := to_uint16
      (REMAP_TO_RANGE (to_uint16 (deref value)) HUE_ATTRIBUTE_MAX HUE_MAX) in
    driver (app_driver_update_and_report_hue hue APP_DRIVER_SRC_MATTER)
  else if attribute =? ZCL_COLOR_CONTROL_CURRENT_SATURATION_ATTRIBUTE_ID then
    let saturation := to_uint8
      (REMAP_TO_RANGE (to_uint16 (deref value)) SATURATION_ATTRIBUTE_MAX SATURATION_MAX) in
    driver (app_driver_update_and_report_saturation saturation APP_DRIVER_SRC_MATTER)
  else if attribute =? ZCL_COLOR_CONTROL_COLOR_TEMPERATURE_ATTRIBUTE_ID then
    temp_mireds <- emberAfReadServerAttribute w endpoint
        ZCL_COLOR_CONTROL_CLUSTER_ID ZCL_COLOR_CONTROL_COLOR_TEMPERATURE_ATTRIBUTE_ID
        (uninitialized_uint16 w) 2 ;;
    let color_temp := to_uint32
      (1000000 / (if temp_mireds =? 0 then 1 else temp_mireds)) in
    driver (app_driver_update_and_report_temperature color_temp APP_DRIVER_SRC_MATTER)
  else
    ESP_LOGW "Unknown attribute in color control cluster: %d" [attribute].

Definition emberAfPostAttributeChangeCallback (w : world)
    (endpoint cluster attribute mask manufacturer type size : Z)
    (value : byte_ptr) : M unit :=
  ESP_LOGI "Handle cluster ID: %d" [cluster] ;;
  if cluster =? ZCL_ON_OFF_CLUSTER_ID then
    on_on_off_attribute_changed endpoint attribute value size
  else if cluster =? ZCL_LEVEL_CONTROL_CLUSTER_ID then
    on_level_control_atrribute_changed endpoint attribute value size
  else if cluster =? ZCL_COLOR_CONTROL_CLUSTER_ID then
    on_color_control_attribute_changed w endpoint attribute value size
  else
    ret tt.

(** ** The outbound reporters *)

Definition update_matter_power (w : world) (power : bool) : M unit :=
  status <- emberAfWriteAttribute w 1 ZCL_ON_OFF_CLUSTER_ID ZCL_ON_OFF_ATTRIBUTE_ID
      CLUSTER_MASK_SERVER (if power then 1 else 0) ZCL_BOOLEAN_ATTRIBUTE_TYPE ;;
  assert (status =? EMBER_ZCL_STATUS_SUCCESS).

Definition update_matter_brightness (w : world) (brightness : Z) : M unit :=
  status <- emberAfWriteAttribute w 1 ZCL_LEVEL_CONTROL_CLUSTER_ID
      ZCL_CURRENT_LEVEL_ATTRIBUTE_ID CLUSTER_MASK_SERVER brightness
      ZCL_INT8U_ATTRIBUTE_TYPE ;;
  assert (status =? EMBER_ZCL_STATUS_SUCCESS).

Definition update_matter_hue (w : world) (hue : Z) : M unit :=
  let hue_attribute := to_uint8 (REMAP_TO_RANGE hue HUE_MAX HUE_ATTRIBUTE_MAX) in
  status <- emberAfWriteAttribute w 1 ZCL_COLOR_CONTROL_CLUSTER_ID
      ZCL_COLOR_CONTROL_CURRENT_HUE_ATTRIBUTE_ID CLUSTER_MASK_SERVER hue_attribute
      ZCL_INT8U_ATTRIBUTE_TYPE ;;
  assert (status =? EMBER_ZCL_STATUS_SUCCESS).

Definition update_matter_saturation (w : world) (saturation : Z) : M unit :=
  let saturation_attribute := to_uint8
    (REMAP_TO_RANGE (to_uint16 saturation) SATURATION_MAX SATURATION_ATTRIBUTE_MAX) in
  status <- emberAfWriteAttribute w 1 ZCL_COLOR_CONTROL_CLUSTER_ID
      ZCL_COLOR_CONTROL_CURRENT_SATURATION_ATTRIBUTE_ID CLUSTER_MASK_SERVER
      saturation_attribute ZCL_INT8U_ATTRIBUTE_TYPE ;;
  assert (status =? EMBER_ZCL_STATUS_SUCCESS).

Definition update_matter_temperature (w : world) (temperature : Z) : M unit :=
  assert (18 <=? temperature) ;;
  let temp_mireds := to_uint16 (1000000 / temperature) in
  status <- emberAfWriteAttribute w 1 ZCL_COLOR_CONTROL_CLUSTER_ID
      ZCL_COLOR_CONTROL_COLOR_TEMPERATURE_ATTRIBUTE_ID CLUSTER_MASK_SERVER
      temp_mireds ZCL_INT16U_ATTRIBUTE_TYPE ;;
  assert (status =? EMBER_ZCL_STATUS_SUCCESS).

(** ** Stack bring-up *)

(** [CHIP_DEVICE_CONFIG_ENABLE_THREAD] is the build switch of the Thread
    steps. *)
Definition app_matter_init (CHIP_DEVICE_CONFIG_ENABLE_THREAD : bool) (w : world)
    : M esp_err_t :=
  let callbacks := {|
    update_power := cb_update_matter_power;
    update_brightness := cb_update_matter_brightness;
    update_hue := cb_update_matter_hue;
    update_saturation := cb_update_matter_saturation;
    update_temperature := cb_update_matter_temperature
  |} in
  e <- platform InitChipStack (PlatformMgr_InitChipStack w) ;;
  if negb (e =? CHIP_NO_ERROR) then
    ESP_LOGE "Failed to initialize CHIP stack" [] ;;
    ret ESP_FAIL
  else
  emit (Stack (SetBLEAdvertisingEnabled true)) ;;
  e <- platform MemoryInit (Platform_MemoryInit w) ;;
  if negb (e =? CHIP_NO_ERROR) then
    ESP_LOGE "Failed to initialize CHIP memory pool" [] ;;
    ret ESP_ERR_NO_MEM
  else
  e <- platform StartEventLoopTask (PlatformMgr_StartEventLoopTask w) ;;
  if negb (e =? CHIP_NO_ERROR) then
    emit (Stack MemoryShutdown) ;;
    ESP_LOGE "Failed to launch Matter main task" [] ;;
    ret ESP_FAIL
  else
  emit (Stack (AddEventHandler cb_on_device_event 0)) ;;
  let rest : M esp_err_t :=
    emit (Stack InitServer) ;;
    emit (Stack (app_driver_register_src APP_DRIVER_SRC_MATTER callbacks)) ;;
    ret ESP_OK in
  if CHIP_DEVICE_CONFIG_ENABLE_THREAD then
    e <- platform InitThreadStack (ThreadStackMgr_InitThreadStack w) ;;
    if negb (e =? CHIP_NO_ERROR) then
      ESP_LOGE "Failed to initialize Thread stack" [] ;;
      ret ESP_FAIL
    else
    e <- platform StartThreadTask (ThreadStackMgr_StartThreadTask w) ;;
    if negb (e =? CHIP_NO_ERROR) then
      ESP_LOGE "Failed to launch Thread task" [] ;;
      ret ESP_FAIL
    else rest
  else rest.

(** ** Reading a trace *)

Fixpoint driver_calls (t : trace) : list driver_call :=
  match t with
  | [] => []
  | Driver c :: t' => c :: driver_calls t'
  | _ :: t' => driver_calls t'
  end.

Fixpoint warnings (t : trace) : nat :=
  match t with
  | [] => O
  | ESP_LOG ESP_LOG_WARN _ _ :: t' => S (warnings t')
  | _ :: t' => warnings t'
  end.

(** The data of the attribute writes, in order. *)
Fixpoint written_data (t : trace) : list Z :=
  match t with
  | [] => []
  | WriteAttribute _ _ _ _ data _ :: t' => data :: written_data t'
  | _ :: t' => written_data t'
  end.

(** The calls that undo an earlier bring-up step. *)
Definition is_teardown (c : stack_call) : bool :=
  match c with
  | MemoryShutdown => true
  | _ => false
  end.

Fixpoint teardowns (t : trace) : list stack_call :=
  match t with
  | [] => []
  | Stack c :: t' => if is_teardown c then c :: teardowns t' else teardowns t'
  | _ :: t' => teardowns t'
  end.

(** ** The words of the specification *)

(** [q] is a nearest integer to the fraction [n / d]. *)
Definition nearest (q n d : Z) : Prop := Z.abs (2 * d * q - 2 * n) <= d.

(** [miredsToKelvin(mireds) = 1_000_000 / max(mireds, 1)]. *)
Definition miredsToKelvin (mireds : Z) : Z := 1000000 / Z.max mireds 1.

(** [kelvinToMireds(kelvin) = 1_000_000 / kelvin]. *)
Definition kelvinToMireds (kelvin : Z) : Z := 1000000 / kelvin.

(** The attributes the dispatcher acts on, cluster by cluster. *)
Definition known_cluster (cluster : Z) : bool :=
  (cluster =? ZCL_ON_OFF_CLUSTER_ID)
  || (cluster =? ZCL_LEVEL_CONTROL_CLUSTER_ID)
  || (cluster =? ZCL_COLOR_CONTROL_CLUSTER_ID).

Definition recognized_attribute (cluster attribute : Z) : bool :=
  if cluster =? ZCL_ON_OFF_CLUSTER_ID then
    attribute =? ZCL_ON_OFF_ATTRIBUTE_ID
  else if cluster =? ZCL_LEVEL_CONTROL_CLUSTER_ID then
    attribute =? ZCL_CURRENT_LEVEL_ATTRIBUTE_ID
  else if cluster =? ZCL_COLOR_CONTROL_CLUSTER_ID then
    (attribute =? ZCL_COLOR_CONTROL_CURRENT_HUE_ATTRIBUTE_ID)
    || (attribute =? ZCL_COLOR_CONTROL_CURRENT_SATURATION_ATTRIBUTE_ID)
    || (attribute =? ZCL_COLOR_CONTROL_COLOR_TEMPERATURE_ATTRIBUTE_ID)
  else false.

(** The steps of the bring-up that can fail, and the first one that does. *)
Inductive lifecycle_step :=
| step_InitChipStack
| step_MemoryInit
| step_StartEventLoopTask
| step_InitThreadStack
| step_StartThreadTask.

Definition failed (e : CHIP_ERROR) : bool := negb (e =? CHIP_NO_ERROR).

Definition first_failure (thread : bool) (w : world) : option lifecycle_step :=
  if failed (PlatformMgr_InitChipStack w) then Some step_InitChipStack
  else if failed (Platform_MemoryInit w) then Some step_MemoryInit
  else if failed (PlatformMgr_StartEventLoopTask w) then Some step_StartEventLoopTask
  else if thread && failed (ThreadStackMgr_InitThreadStack w) then Some step_InitThreadStack
  else if thread && failed (ThreadStackMgr_StartThreadTask w) then Some step_StartThreadTask
  else None.

(** The code each failing step is answered with. *)
Definition failure_code (s : lifecycle_step) : esp_err_t :=
  match s with
  | step_MemoryInit => ESP_ERR_NO_MEM
  | _ => ESP_FAIL
  end.

(** The calls of a bring-up up to and including step [s], and the error it
    logs when that step fails. *)
Definition calls_up_to (s : lifecycle_step) : trace :=
  match s with
  | step_InitChipStack =>
      [Stack InitChipStack]
  | step_MemoryInit =>
      [Stack InitChipStack; Stack (SetBLEAdvertisingEnabled true);
       Stack MemoryInit]
  | step_StartEventLoopTask =>
      [Stack InitChipStack; Stack (SetBLEAdvertisingEnabled true);
       Stack MemoryInit; Stack StartEventLoopTask]
  | step_InitThreadStack =>
      [Stack InitChipStack; Stack (SetBLEAdvertisingEnabled true);
       Stack MemoryInit; Stack StartEventLoopTask;
       Stack (AddEventHandler cb_on_device_event 0); Stack InitThreadStack]
  | step_StartThreadTask =>
      [Stack InitChipStack; Stack (SetBLEAdvertisingEnabled true);
       Stack MemoryInit; Stack StartEventLoopTask;
       Stack (AddEventHandler cb_on_device_event 0); Stack InitThreadStack;
       Stack StartThreadTask]
  end.

Definition failure_message (s : lifecycle_step) : string :=
  match s with
  | step_InitChipStack => "Failed to initialize CHIP stack"
  | step_MemoryInit => "Failed to initialize CHIP memory pool"
  | step_StartEventLoopTask => "Failed to launch Matter main task"
  | step_InitThreadStack => "Failed to initialize Thread stack"
  | step_StartThreadTask => "Failed to launch Thread task"
  end.

(** What a failing step does between its failure and its error log. *)
Definition compensation (s : lifecycle_step) : trace :=
  match s with
  | step_StartEventLoopTask => [Stack MemoryShutdown]
  | _ => []
  end.

(** The five reports the driver can make, and the reporter each one runs. *)
Inductive report :=
| report_power (power : bool)
| report_brightness (brightness : Z)
| report_hue (hue : Z)
| report_saturation (saturation : Z)
| report_temperature (temperature : Z).

Definition run_report (w : world) (r : report) : M unit :=
  match r with
  | report_power power => update_matter_power w power
  | report_brightness brightness => update_matter_brightness w brightness
  | report_hue hue => update_matter_hue w hue
  | report_saturation saturation => update_matter_saturation w saturation
  | report_temperature temperature => update_matter_temperature w temperature
  end.

(** ** Sample worlds *)

Module Sample.
(** A world whose platform calls answer [init], [mem], [loop], [thread] and
    [task], whose colour temperature attribute holds [mireds] on every
    endpoint, and whose writes all answer [status]. *)
Definition make (init mem loop thread task : CHIP_ERROR) (mireds : Z)
    (status : EmberAfStatus) : world := {|
  PlatformMgr_InitChipStack := init;
  Platform_MemoryInit := mem;
  PlatformMgr_StartEventLoopTask := loop;
  ThreadStackMgr_InitThreadStack := thread;
  ThreadStackMgr_StartThreadTask := task;
  attribute_store := fun _ cluster attribute =>
    if (cluster =? ZCL_COLOR_CONTROL_CLUSTER_ID)
       && (attribute =? ZCL_COLOR_CONTROL_COLOR_TEMPERATURE_ATTRIBUTE_ID)
    then Some mireds else None;
  write_status := fun _ _ _ _ _ _ => status;
  uninitialized_uint16 := 0xbeef
|}.

Definition healthy : world := make 0 0 0 0 0 250 EMBER_ZCL_STATUS_SUCCESS.
Definition chip_stack_fails : world := make 1 0 0 0 0 250 EMBER_ZCL_STATUS_SUCCESS.
Definition memory_pool_fails : world := make 0 1 0 0 0 250 EMBER_ZCL_STATUS_SUCCESS.
Definition event_loop_fails : world := make 0 0 1 0 0 250 EMBER_ZCL_STATUS_SUCCESS.
Definition thread_stack_fails : world := make 0 0 0 1 0 250 EMBER_ZCL_STATUS_SUCCESS.
Definition store_rejects_writes : world := make 0 0 0 0 0 250 1.
Definition store_holds_zero : world := make 0 0 0 0 0 0 EMBER_ZCL_STATUS_SUCCESS.
End Sample.

(** ** The device event observer *)

(** Modelled from the spec: the event types of [platform/CHIPDeviceLayer.h],
    which is not among the sources; the observer tells "network interface
    address changed" and "radio state changed" from every other type. *)
Inductive PublicEventTypes :=
| kInterfaceIpAddressChanged
| kThreadStateChange
| kOtherEvent (type : Z).

Definition PublicEventTypes_eqb (a b : PublicEventTypes) : bool :=
  match a, b with
  | kInterfaceIpAddressChanged, kInterfaceIpAddressChanged => true
  | kThreadStateChange, kThreadStateChange => true
  | kOtherEvent m, kOtherEvent n => m =? n
  | _, _ => false
  end.

(** [esp_heap_caps.h] of ESP-IDF. *)
Definition MALLOC_CAP_8BIT : Z := 4.

(** What the observer does: calls of its own, and log lines. *)
Inductive device_effect :=
| Mdns_StartServer
| heap_caps_get_free_size (caps : Z)
| Logged (e : effect).

(** [free_heap] is the answer of [heap_caps_get_free_size]. *)
Definition on_device_event (CHIP_DEVICE_CONFIG_ENABLE_THREAD : bool)
    (free_heap : Z) (event_Type : PublicEventTypes) (arg : Z)
    : list device_effect :=
  (if PublicEventTypes_eqb event_Type kInterfaceIpAddressChanged
   then [Mdns_StartServer] else [])
  ++ (if CHIP_DEVICE_CONFIG_ENABLE_THREAD then
        if PublicEventTypes_eqb event_Type kThreadStateChange
        then [Mdns_StartServer] else []
      else [])
  ++ [heap_caps_get_free_size MALLOC_CAP_8BIT;
      Logged (ESP_LOG ESP_LOG_INFO "Current free heap: %zu" [free_heap])].

Fixpoint mdns_starts (t : list device_effect) : nat :=
  match t with
  | [] => O
  | Mdns_StartServer :: t' => S (mdns_starts t')
  | _ :: t' => mdns_starts t'
  end.

(** ** More ways to read a trace *)

Definition driver_src (c : driver_call) : app_driver_src_t :=
  match c with
  | app_driver_update_and_report_power _ src
  | app_driver_update_and_report_brightness _ src
  | app_driver_update_and_report_hue _ src
  | app_driver_update_and_report_saturation _ src
  | app_driver_update_and_report_temperature _ src => src
  end.

Fixpoint reads (t : trace) : nat :=
  match t with
  | [] => O
  | ReadServerAttribute _ _ _ _ :: t' => S (reads t')
  | _ :: t' => reads t'
  end.

Fixpoint errors (t : trace) : nat :=
  match t with
  | [] => O
  | ESP_LOG ESP_LOG_ERROR _ _ :: t' => S (errors t')
  | _ :: t' => errors t'
  end.

Fixpoint stack_calls (t : trace) : list stack_call :=
  match t with
  | [] => []
  | Stack c :: t' => c :: stack_calls t'
  | _ :: t' => stack_calls t'
  end.

(** The callback set [app_matter_init] builds. *)
Definition matter_callbacks : app_driver_param_callback_t := {|
  update_power := cb_update_matter_power;
  update_brightness := cb_update_matter_brightness;
  update_hue := cb_update_matter_hue;
  update_saturation := cb_update_matter_saturation;
  update_temperature := cb_update_matter_temperature
|}.

(** What the colour temperature read leaves in [temp_mireds]. *)
Definition temp_mireds_after_read (w : world) (endpoint : Z) : Z :=
  match attribute_store w endpoint ZCL_COLOR_CONTROL_CLUSTER_ID
          ZCL_COLOR_CONTROL_COLOR_TEMPERATURE_ATTRIBUTE_ID with
  | Some v => v
  | None => uninitialized_uint16 w
  end.

(** ** Tactics *)

(** Run the calls made so far and split on the answer [b] they lead to; the
    run that stops at a failed answer is closed by computation. *)
Ltac run_to b :=
  cbv beta iota zeta delta [bind emit ret platform ESP_LOGE];
  destruct b; [|reflexivity].

(** * Properties *)

(** ** The monad *)

Lemma bind_ret_l {A B} (a : A) (k : A -> M B) : bind (ret a) k = k a.
Proof. unfold bind, ret. destruct (k a) as [t r]. reflexivity. Qed.

Lemma bind_emit {B} (e : effect) (k : unit -> M B) :
  bind (emit e) k = (e :: events (k tt), result (k tt)).
Proof. unfold bind, emit, events, result. destruct (k tt). reflexivity. Qed.

Lemma bind_assoc {A B C} (m : M A) (k : A -> M B) (h : B -> M C) :
  bind (bind m k) h = bind m (fun a => bind (k a) h).
Proof.
  destruct m as [t [a|]]; [|reflexivity].
  unfold bind. destruct (k a) as [t1 [b|]]; [|reflexivity].
  destruct (h b) as [t2 r]. now rewrite app_assoc.
Qed.

(** ** The unit converter *)

Lemma REMAP_TO_RANGE_nearest value from to :
  0 < from -> nearest (REMAP_TO_RANGE value from to) (value * to) from.
Proof.
  intros Hfrom. unfold nearest, REMAP_TO_RANGE.
  pose proof (Z.div_mod (2 * (value * to) + from) (2 * from)) as E.
  pose proof (Z.mod_pos_bound (2 * (value * to) + from) (2 * from)) as B.
  lia.
Qed.

(** The round trip does not depend on how a half is rounded. *)
Lemma hue_round_trip_of_nearest v local wire :
  0 <= v <= HUE_ATTRIBUTE_MAX ->
  nearest local (v * HUE_MAX) HUE_ATTRIBUTE_MAX ->
  nearest wire (local * HUE_ATTRIBUTE_MAX) HUE_MAX ->
  wire = v.
Proof. unfold nearest, HUE_MAX, HUE_ATTRIBUTE_MAX. lia. Qed.

Lemma saturation_round_trip_of_nearest v local wire :
  0 <= v <= SATURATION_ATTRIBUTE_MAX ->
  nearest local (v * SATURATION_MAX) SATURATION_ATTRIBUTE_MAX ->
  nearest wire (local * SATURATION_ATTRIBUTE_MAX) SATURATION_MAX ->
  Z.abs (wire - v) <= 1.
Proof. unfold nearest, SATURATION_MAX, SATURATION_ATTRIBUTE_MAX. lia. Qed.

Lemma REMAP_TO_RANGE_bounds value from to :
  0 < from -> 0 <= to -> 0 <= value <= from ->
  0 <= REMAP_TO_RANGE value from to <= to.
Proof.
  intros Hfrom Hto Hv. unfold REMAP_TO_RANGE. split.
  - apply Z.div_pos; nia.
  - apply Z.lt_succ_r, Z.div_lt_upper_bound; nia.
Qed.

(** C2. For every wire value [v] in [0,254], [REMAP_TO_RANGE] to the local
    hue range (max 359) and back to the wire range gives a value within 1 of
    [v], and so does the round trip through the local saturation range
    (max 100). *)
Theorem remap_round_trip (v : Z) :
  0 <= v <= 254 ->
  Z.abs (REMAP_TO_RANGE (REMAP_TO_RANGE v HUE_ATTRIBUTE_MAX HUE_MAX)
                        HUE_MAX HUE_ATTRIBUTE_MAX - v) <= 1
  /\ Z.abs (REMAP_TO_RANGE
              (REMAP_TO_RANGE v SATURATION_ATTRIBUTE_MAX SATURATION_MAX)
              SATURATION_MAX SATURATION_ATTRIBUTE_MAX - v) <= 1.
Proof.
  intros Hv. split.
  - rewrite (hue_round_trip_of_nearest v
               (REMAP_TO_RANGE v HUE_ATTRIBUTE_MAX HUE_MAX)
               (REMAP_TO_RANGE (REMAP_TO_RANGE v HUE_ATTRIBUTE_MAX HUE_MAX)
                               HUE_MAX HUE_ATTRIBUTE_MAX)).
    + rewrite Z.sub_diag. simpl. lia.
    + exact Hv.
    + apply REMAP_TO_RANGE_nearest. reflexivity.
    + apply REMAP_TO_RANGE_nearest. reflexivity.
  - apply (saturation_round_trip_of_nearest v
             (REMAP_TO_RANGE v SATURATION_ATTRIBUTE_MAX SATURATION_MAX)).
    + exact Hv.
    + apply REMAP_TO_RANGE_nearest. reflexivity.
    + apply REMAP_TO_RANGE_nearest. reflexivity.
Qed.

Lemma remap_round_trip_witness :
  0 <= 127 <= 254
  /\ Z.abs (REMAP_TO_RANGE (REMAP_TO_RANGE 127 HUE_ATTRIBUTE_MAX HUE_MAX)
                           HUE_MAX HUE_ATTRIBUTE_MAX - 127) <= 1
  /\ Z.abs (REMAP_TO_RANGE
              (REMAP_TO_RANGE 127 SATURATION_ATTRIBUTE_MAX SATURATION_MAX)
              SATURATION_MAX SATURATION_ATTRIBUTE_MAX - 127) <= 1.
Proof. split; [lia | apply (remap_round_trip 127); lia]. Defined.

(** The same round trip through the code: the hue the dispatcher hands to the
    driver, reported back by [update_matter_hue], is written as the wire
    value it came from. *)
Lemma hue_dispatch_then_report w endpoint mask manufacturer type size v rest :
  0 <= v <= 254 ->
  exists hue,
    driver_calls (events (emberAfPostAttributeChangeCallback w endpoint
      ZCL_COLOR_CONTROL_CLUSTER_ID ZCL_COLOR_CONTROL_CURRENT_HUE_ATTRIBUTE_ID
      mask manufacturer type size (v, rest)))
    = [app_driver_update_and_report_hue hue APP_DRIVER_SRC_MATTER]
    /\ written_data (events (update_matter_hue w hue)) = [v].
Proof.
  intros Hv.
  exists (REMAP_TO_RANGE v HUE_ATTRIBUTE_MAX HUE_MAX).
  assert (Hlocal : 0 <= REMAP_TO_RANGE v HUE_ATTRIBUTE_MAX HUE_MAX <= HUE_MAX)
    by (apply REMAP_TO_RANGE_bounds; unfold HUE_ATTRIBUTE_MAX, HUE_MAX; lia).
  split.
  - cbn -[REMAP_TO_RANGE Z.modulo Z.pow]. unfold to_uint16.
    change 254 with HUE_ATTRIBUTE_MAX. change 359 with HUE_MAX.
    rewrite (Z.mod_small v) by lia.
    rewrite Z.mod_small; [reflexivity|].
    assert (HUE_MAX < 2 ^ 16) by reflexivity. lia.
  - unfold update_matter_hue, emberAfWriteAttribute.
    rewrite bind_assoc, bind_emit, bind_ret_l. cbn [events fst written_data].
    rewrite (hue_round_trip_of_nearest v
               (REMAP_TO_RANGE v HUE_ATTRIBUTE_MAX HUE_MAX)
               (REMAP_TO_RANGE (REMAP_TO_RANGE v HUE_ATTRIBUTE_MAX HUE_MAX)
                               HUE_MAX HUE_ATTRIBUTE_MAX));
      try (apply REMAP_TO_RANGE_nearest; reflexivity); [|exact Hv].
    unfold to_uint8. rewrite Z.mod_small by lia.
    destruct (_ =? _); reflexivity.
Qed.

(** C3. A report of hue 120 degrees writes the wire value 85 to the current
    hue attribute of the colour control cluster at endpoint 1. *)
Theorem update_matter_hue_120 (w : world) :
  events (update_matter_hue w 120)
  = [WriteAttribute 1 ZCL_COLOR_CONTROL_CLUSTER_ID
       ZCL_COLOR_CONTROL_CURRENT_HUE_ATTRIBUTE_ID CLUSTER_MASK_SERVER 85
       ZCL_INT8U_ATTRIBUTE_TYPE]
  /\ REMAP_TO_RANGE 120 HUE_MAX HUE_ATTRIBUTE_MAX = 85.
Proof.
  split; [|reflexivity].
  unfold update_matter_hue, emberAfWriteAttribute.
  rewrite bind_assoc, bind_emit, bind_ret_l. cbn [events fst].
  destruct (_ =? _); reflexivity.
Qed.

(** ** Colour temperature *)

Lemma kelvinToMireds_range (kelvin : Z) :
  18 <= kelvin ->
  0 <= kelvinToMireds kelvin <= 55555
  /\ (1 <= kelvinToMireds kelvin <-> kelvin <= 1000000).
Proof.
  intros Hk. unfold kelvinToMireds. repeat split.
  - apply Z.div_pos; lia.
  - change 55555 with (1000000 / 18). apply Z.div_le_compat_l; lia.
  - intros Hm. destruct (Z_le_gt_dec kelvin 1000000) as [|Hgt]; [assumption|].
    rewrite Z.div_small in Hm; lia.
  - intros Hle. apply Z.div_le_lower_bound; lia.
Qed.

Lemma update_matter_temperature_run (w : world) (temperature : Z) :
  18 <= temperature ->
  update_matter_temperature w temperature
  = ([WriteAttribute 1 ZCL_COLOR_CONTROL_CLUSTER_ID
        ZCL_COLOR_CONTROL_COLOR_TEMPERATURE_ATTRIBUTE_ID CLUSTER_MASK_SERVER
        (kelvinToMireds temperature) ZCL_INT16U_ATTRIBUTE_TYPE],
     if write_status w 1 ZCL_COLOR_CONTROL_CLUSTER_ID
          ZCL_COLOR_CONTROL_COLOR_TEMPERATURE_ATTRIBUTE_ID CLUSTER_MASK_SERVER
          (kelvinToMireds temperature) ZCL_INT16U_ATTRIBUTE_TYPE
        =? EMBER_ZCL_STATUS_SUCCESS
     then Returned tt else Aborted).
Proof.
  intros Hk. unfold update_matter_temperature.
  destruct (Z.leb_spec 18 temperature) as [_|]; [|lia].
  unfold assert at 1. rewrite bind_ret_l.
  unfold to_uint16. rewrite Z.mod_small.
  - unfold emberAfWriteAttribute. rewrite bind_assoc, bind_emit, bind_ret_l.
    fold (kelvinToMireds temperature).
    unfold assert, events, result. destruct (_ =? _); reflexivity.
  - fold (kelvinToMireds temperature).
    pose proof (kelvinToMireds_range temperature Hk). lia.
Qed.

(** C4. A change of the colour temperature attribute makes the dispatcher
    read the mireds value the attribute store holds, whatever bytes the
    notification carries, and call the driver's temperature update with
    1_000_000 divided by that value, a value of 0 counting as 1; mireds 250
    gives 4000 kelvin and mireds 0 gives 1_000_000. *)
Theorem color_temperature_comes_from_the_store
    (w : world) (endpoint mask manufacturer type size : Z) (value : byte_ptr)
    (mireds : Z) :
  attribute_store w endpoint ZCL_COLOR_CONTROL_CLUSTER_ID
    ZCL_COLOR_CONTROL_COLOR_TEMPERATURE_ATTRIBUTE_ID = Some mireds ->
  0 <= mireds <= UINT16_MAX ->
  emberAfPostAttributeChangeCallback w endpoint ZCL_COLOR_CONTROL_CLUSTER_ID
    ZCL_COLOR_CONTROL_COLOR_TEMPERATURE_ATTRIBUTE_ID mask manufacturer type
    size value
  = ([ESP_LOG ESP_LOG_INFO "Handle cluster ID: %d" [ZCL_COLOR_CONTROL_CLUSTER_ID];
      ReadServerAttribute endpoint ZCL_COLOR_CONTROL_CLUSTER_ID
        ZCL_COLOR_CONTROL_COLOR_TEMPERATURE_ATTRIBUTE_ID 2;
      Driver (app_driver_update_and_report_temperature
                (miredsToKelvin mireds) APP_DRIVER_SRC_MATTER)],
     Returned tt)
  /\ miredsToKelvin mireds = 1000000 / (if mireds =? 0 then 1 else mireds)
  /\ miredsToKelvin 250 = 4000
  /\ miredsToKelvin 0 = 1000000.
Proof.
  intros Hstore Hrange.
  assert (Hk : miredsToKelvin mireds
               = 1000000 / (if mireds =? 0 then 1 else mireds)).
  { unfold miredsToKelvin. destruct (Z.eqb_spec mireds 0) as [->|Hne].
    - reflexivity.
    - rewrite Z.max_l by lia. reflexivity. }
  repeat split; try assumption.
  unfold emberAfPostAttributeChangeCallback, ESP_LOGI.
  rewrite bind_emit. cbn [Z.eqb ZCL_COLOR_CONTROL_CLUSTER_ID ZCL_ON_OFF_CLUSTER_ID
    ZCL_LEVEL_CONTROL_CLUSTER_ID Pos.eqb].
  unfold on_color_control_attribute_changed.
  cbn [Z.eqb ZCL_COLOR_CONTROL_COLOR_TEMPERATURE_ATTRIBUTE_ID
    ZCL_COLOR_CONTROL_CURRENT_HUE_ATTRIBUTE_ID
    ZCL_COLOR_CONTROL_CURRENT_SATURATION_ATTRIBUTE_ID Pos.eqb].
  unfold emberAfReadServerAttribute.
  rewrite bind_assoc, bind_emit, bind_ret_l.
  change 7 with ZCL_COLOR_CONTROL_COLOR_TEMPERATURE_ATTRIBUTE_ID.
  change 768 with ZCL_COLOR_CONTROL_CLUSTER_ID.
  rewrite Hstore. rewrite <- Hk.
  unfold to_uint32. rewrite Z.mod_small; [reflexivity|].
  rewrite Hk. unfold UINT16_MAX in Hrange. split.
  - apply Z.div_pos; destruct (Z.eqb_spec mireds 0); lia.
  - apply Z.le_lt_trans with 1000000; [|reflexivity].
    apply Z.div_le_upper_bound; destruct (Z.eqb_spec mireds 0); lia.
Qed.

Lemma color_temperature_comes_from_the_store_witness :
  emberAfPostAttributeChangeCallback Sample.healthy 1
    ZCL_COLOR_CONTROL_CLUSTER_ID
    ZCL_COLOR_CONTROL_COLOR_TEMPERATURE_ATTRIBUTE_ID 0 0
    ZCL_INT16U_ATTRIBUTE_TYPE 2 (0x99, [0x01])
  = ([ESP_LOG ESP_LOG_INFO "Handle cluster ID: %d" [ZCL_COLOR_CONTROL_CLUSTER_ID];
      ReadServerAttribute 1 ZCL_COLOR_CONTROL_CLUSTER_ID
        ZCL_COLOR_CONTROL_COLOR_TEMPERATURE_ATTRIBUTE_ID 2;
      Driver (app_driver_update_and_report_temperature
                (miredsToKelvin 250) APP_DRIVER_SRC_MATTER)],
     Returned tt).
Proof.
  apply (color_temperature_comes_from_the_store Sample.healthy 1 0 0
           ZCL_INT16U_ATTRIBUTE_TYPE 2 (0x99, [0x01]) 250).
  - reflexivity.
  - unfold UINT16_MAX. lia.
Defined.

(** A stored value of 0 mireds reaches the driver as 1_000_000 kelvin, though
    the notification carries other bytes. *)
Example color_temperature_of_zero_mireds :
  driver_calls (events (emberAfPostAttributeChangeCallback
    Sample.store_holds_zero 1 ZCL_COLOR_CONTROL_CLUSTER_ID
    ZCL_COLOR_CONTROL_COLOR_TEMPERATURE_ATTRIBUTE_ID 0 0
    ZCL_INT16U_ATTRIBUTE_TYPE 2 (0xfa, [0x00])))
  = [app_driver_update_and_report_temperature 1000000 APP_DRIVER_SRC_MATTER].
Proof. reflexivity. Qed.

(** C5. [update_matter_temperature] requires at least 18 kelvin: below that
    the assertion fails and the run is aborted before anything is written;
    from 18 on it writes 1_000_000 / kelvin, which for 4000 kelvin is 250. *)
Theorem update_matter_temperature_precondition (w : world) (temperature : Z) :
  0 <= temperature <= UINT32_MAX ->
  (temperature < 18 -> update_matter_temperature w temperature = ([], Aborted))
  /\ (18 <= temperature ->
      events (update_matter_temperature w temperature)
      = [WriteAttribute 1 ZCL_COLOR_CONTROL_CLUSTER_ID
           ZCL_COLOR_CONTROL_COLOR_TEMPERATURE_ATTRIBUTE_ID CLUSTER_MASK_SERVER
           (1000000 / temperature) ZCL_INT16U_ATTRIBUTE_TYPE])
  /\ kelvinToMireds temperature = 1000000 / temperature
  /\ kelvinToMireds 4000 = 250.
Proof.
  intros _. repeat split.
  - intros Hlt. unfold update_matter_temperature.
    destruct (Z.leb_spec 18 temperature); [lia|reflexivity].
  - intros Hge. rewrite (update_matter_temperature_run w temperature Hge).
    reflexivity.
Qed.

Lemma update_matter_temperature_precondition_witness :
  update_matter_temperature Sample.healthy 17 = ([], Aborted)
  /\ events (update_matter_temperature Sample.healthy 4000)
     = [WriteAttribute 1 ZCL_COLOR_CONTROL_CLUSTER_ID
          ZCL_COLOR_CONTROL_COLOR_TEMPERATURE_ATTRIBUTE_ID CLUSTER_MASK_SERVER
          (1000000 / 4000) ZCL_INT16U_ATTRIBUTE_TYPE].
Proof.
  split.
  - apply (update_matter_temperature_precondition Sample.healthy 17);
      unfold UINT32_MAX; lia.
  - apply (update_matter_temperature_precondition Sample.healthy 4000);
      unfold UINT32_MAX; lia.
Defined.

(** C9, as the code has it. For every kelvin value from 18 up to the largest
    [uint32_t], the mireds value [update_matter_temperature] writes is
    1_000_000 / kelvin, lies in [0, 55555], so fits an unsigned 16-bit integer
    untruncated and stays below 0xfeff; it is at least 1 exactly when kelvin
    is at most 1_000_000. *)
Theorem update_matter_temperature_mireds_range (w : world) (temperature : Z) :
  18 <= temperature <= UINT32_MAX ->
  written_data (events (update_matter_temperature w temperature))
  = [1000000 / temperature]
  /\ 0 <= 1000000 / temperature <= 55555
  /\ to_uint16 (1000000 / temperature) = 1000000 / temperature
  /\ 1000000 / temperature <= 0xfeff
  /\ (1 <= 1000000 / temperature <-> temperature <= 1000000).
Proof.
  intros [Hk _].
  pose proof (kelvinToMireds_range temperature Hk) as [Hr Hone].
  unfold kelvinToMireds in Hr, Hone.
  rewrite (update_matter_temperature_run w temperature Hk).
  repeat split; try lia; try (apply Hone; assumption).
  unfold to_uint16. apply Z.mod_small. lia.
Qed.

Lemma update_matter_temperature_mireds_range_witness :
  written_data (events (update_matter_temperature Sample.healthy 18))
  = [1000000 / 18]
  /\ 0 <= 1000000 / 18 <= 55555.
Proof.
  split;
    apply (update_matter_temperature_mireds_range Sample.healthy 18);
    unfold UINT32_MAX; lia.
Defined.

(** C9 as written fails: 1_000_001 kelvin satisfies the precondition and the
    value written is 0, which is not in [1, 55555]. *)
Lemma update_matter_temperature_mireds_zero :
  18 <= 1000001 <= UINT32_MAX
  /\ written_data (events (update_matter_temperature Sample.healthy 1000001))
     = [0]
  /\ ~ (1 <= 1000000 / 1000001 <= 55555).
Proof.
  split; [unfold UINT32_MAX; lia|]. split; [reflexivity|].
  change (1000000 / 1000001) with 0. lia.
Qed.

(** ** The dispatcher *)

Lemma dispatch_run (w : world)
    (endpoint cluster attribute mask manufacturer type size : Z)
    (value : byte_ptr) (body : M unit) :
  (if cluster =? ZCL_ON_OFF_CLUSTER_ID then
     on_on_off_attribute_changed endpoint attribute value size
   else if cluster =? ZCL_LEVEL_CONTROL_CLUSTER_ID then
     on_level_control_atrribute_changed endpoint attribute value size
   else if cluster =? ZCL_COLOR_CONTROL_CLUSTER_ID then
     on_color_control_attribute_changed w endpoint attribute value size
   else ret tt) = body ->
  emberAfPostAttributeChangeCallback w endpoint cluster attribute mask
    manufacturer type size value
  = (ESP_LOG ESP_LOG_INFO "Handle cluster ID: %d" [cluster] :: events body,
     result body).
Proof.
  intros <-. unfold emberAfPostAttributeChangeCallback, ESP_LOGI.
  apply bind_emit.
Qed.

(** C6. An event whose attribute is not one the dispatcher acts on reaches no
    driver function; it is answered by exactly one warning when its cluster is
    On/Off, Level Control or Colour Control, and by no warning at all when the
    cluster is any other. *)
Theorem unrecognized_attribute_is_dropped
    (w : world) (endpoint cluster attribute mask manufacturer type size : Z)
    (value : byte_ptr) :
  recognized_attribute cluster attribute = false ->
  driver_calls (events (emberAfPostAttributeChangeCallback w endpoint cluster
    attribute mask manufacturer type size value)) = []
  /\ warnings (events (emberAfPostAttributeChangeCallback w endpoint cluster
       attribute mask manufacturer type size value))
     = (if known_cluster cluster then 1%nat else 0%nat)
  /\ result (emberAfPostAttributeChangeCallback w endpoint cluster attribute
       mask manufacturer type size value) = Returned tt.
Proof.
  intros Hunknown.
  rewrite (dispatch_run w endpoint cluster attribute mask manufacturer type
             size value _ eq_refl).
  unfold recognized_attribute in Hunknown. unfold known_cluster.
  unfold on_on_off_attribute_changed, on_level_control_atrribute_changed,
    on_color_control_attribute_changed.
  destruct (cluster =? ZCL_ON_OFF_CLUSTER_ID).
  { rewrite Hunknown. repeat split. }
  destruct (cluster =? ZCL_LEVEL_CONTROL_CLUSTER_ID).
  { rewrite Hunknown. repeat split. }
  destruct (cluster =? ZCL_COLOR_CONTROL_CLUSTER_ID); [|repeat split].
  apply orb_false_elim in Hunknown as [Hunknown Htemp].
  apply orb_false_elim in Hunknown as [Hhue Hsat].
  rewrite Hhue, Hsat, Htemp. repeat split.
Qed.

Lemma unrecognized_attribute_is_dropped_witness :
  (driver_calls (events (emberAfPostAttributeChangeCallback Sample.healthy 1
     ZCL_ON_OFF_CLUSTER_ID 0x4001 0 0 ZCL_INT16U_ATTRIBUTE_TYPE 2 (5, [0])))
   = []
   /\ warnings (events (emberAfPostAttributeChangeCallback Sample.healthy 1
        ZCL_ON_OFF_CLUSTER_ID 0x4001 0 0 ZCL_INT16U_ATTRIBUTE_TYPE 2 (5, [0])))
      = 1%nat
   /\ result (emberAfPostAttributeChangeCallback Sample.healthy 1
        ZCL_ON_OFF_CLUSTER_ID 0x4001 0 0 ZCL_INT16U_ATTRIBUTE_TYPE 2 (5, [0]))
      = Returned tt)
  /\ (driver_calls (events (emberAfPostAttributeChangeCallback Sample.healthy 1
        0x0003 0 0 0 ZCL_INT16U_ATTRIBUTE_TYPE 2 (5, [0])))
      = []
      /\ warnings (events (emberAfPostAttributeChangeCallback Sample.healthy 1
           0x0003 0 0 0 ZCL_INT16U_ATTRIBUTE_TYPE 2 (5, [0])))
         = 0%nat
      /\ result (emberAfPostAttributeChangeCallback Sample.healthy 1
           0x0003 0 0 0 ZCL_INT16U_ATTRIBUTE_TYPE 2 (5, [0]))
         = Returned tt).
Proof.
  split.
  - apply (unrecognized_attribute_is_dropped Sample.healthy 1
             ZCL_ON_OFF_CLUSTER_ID 0x4001 0 0 ZCL_INT16U_ATTRIBUTE_TYPE 2
             (5, [0])).
    reflexivity.
  - apply (unrecognized_attribute_is_dropped Sample.healthy 1 0x0003 0 0 0
             ZCL_INT16U_ATTRIBUTE_TYPE 2 (5, [0])).
    reflexivity.
Defined.

(** What the dispatcher does with an attribute it acts on: one driver call
    and no warning. *)
Lemma recognized_attribute_reaches_the_driver
    (w : world) (endpoint cluster attribute mask manufacturer type size : Z)
    (value : byte_ptr) :
  recognized_attribute cluster attribute = true ->
  List.length (driver_calls (events (emberAfPostAttributeChangeCallback w endpoint
    cluster attribute mask manufacturer type size value))) = 1%nat
  /\ warnings (events (emberAfPostAttributeChangeCallback w endpoint cluster
       attribute mask manufacturer type size value)) = 0%nat.
Proof.
  intros Hknown.
  rewrite (dispatch_run w endpoint cluster attribute mask manufacturer type
             size value _ eq_refl).
  unfold recognized_attribute in Hknown.
  unfold on_on_off_attribute_changed, on_level_control_atrribute_changed,
    on_color_control_attribute_changed.
  destruct (cluster =? ZCL_ON_OFF_CLUSTER_ID).
  { rewrite Hknown. split; reflexivity. }
  destruct (cluster =? ZCL_LEVEL_CONTROL_CLUSTER_ID).
  { rewrite Hknown. split; reflexivity. }
  destruct (cluster =? ZCL_COLOR_CONTROL_CLUSTER_ID); [|discriminate].
  destruct (attribute =? ZCL_COLOR_CONTROL_CURRENT_HUE_ATTRIBUTE_ID);
    [split; reflexivity|].
  destruct (attribute =? ZCL_COLOR_CONTROL_CURRENT_SATURATION_ATTRIBUTE_ID);
    [split; reflexivity|].
  destruct (attribute =? ZCL_COLOR_CONTROL_COLOR_TEMPERATURE_ATTRIBUTE_ID);
    [|discriminate].
  unfold emberAfReadServerAttribute.
  rewrite bind_assoc, bind_emit, bind_ret_l. split; reflexivity.
Qed.

(** The dispatcher never reads its mask, manufacturer code, type tag and
    size: in one world, two calls that agree on the other arguments run
    alike. *)
Lemma dispatcher_ignores_mask_manufacturer_type_size
    (w : world) (endpoint cluster attribute : Z) (value : byte_ptr)
    (mask manufacturer type size mask' manufacturer' type' size' : Z) :
  emberAfPostAttributeChangeCallback w endpoint cluster attribute mask
    manufacturer type size value
  = emberAfPostAttributeChangeCallback w endpoint cluster attribute mask'
      manufacturer' type' size' value
  /\ driver_calls (events (emberAfPostAttributeChangeCallback w endpoint cluster
       attribute mask manufacturer type size value))
     = driver_calls (events (emberAfPostAttributeChangeCallback w endpoint
         cluster attribute mask' manufacturer' type' size' value)).
Proof.
  assert (Hrun : emberAfPostAttributeChangeCallback w endpoint cluster
                   attribute mask manufacturer type size value
                 = emberAfPostAttributeChangeCallback w endpoint cluster
                     attribute mask' manufacturer' type' size' value).
  { rewrite (dispatch_run w endpoint cluster attribute mask manufacturer type
               size value _ eq_refl).
    rewrite (dispatch_run w endpoint cluster attribute mask' manufacturer'
               type' size' value _ eq_refl).
    reflexivity. }
  split; [exact Hrun | now rewrite Hrun].
Qed.

(** A second world reaches the driver with the same call as soon as its
    attribute store answers the colour temperature read alike: the store is
    the one thing outside its arguments the dispatcher depends on. *)
Lemma dispatcher_sees_the_world_through_one_read
    (w w' : world) (endpoint cluster attribute mask manufacturer type size : Z)
    (value : byte_ptr) :
  attribute_store w endpoint ZCL_COLOR_CONTROL_CLUSTER_ID
    ZCL_COLOR_CONTROL_COLOR_TEMPERATURE_ATTRIBUTE_ID
  = attribute_store w' endpoint ZCL_COLOR_CONTROL_CLUSTER_ID
      ZCL_COLOR_CONTROL_COLOR_TEMPERATURE_ATTRIBUTE_ID ->
  uninitialized_uint16 w = uninitialized_uint16 w' ->
  emberAfPostAttributeChangeCallback w endpoint cluster attribute mask
    manufacturer type size value
  = emberAfPostAttributeChangeCallback w' endpoint cluster attribute mask
      manufacturer type size value.
Proof.
  intros Hstore Hlocal.
  unfold emberAfPostAttributeChangeCallback, on_color_control_attribute_changed,
    emberAfReadServerAttribute.
  rewrite Hstore, Hlocal. reflexivity.
Qed.

(** ** Bring-up *)

Lemma app_matter_init_run (thread : bool) (w : world) :
  app_matter_init thread w
  = match first_failure thread w with
    | Some s =>
        (calls_up_to s ++ compensation s
           ++ [ESP_LOG ESP_LOG_ERROR (failure_message s) []],
         Returned (failure_code s))
    | None =>
        (calls_up_to (if thread then step_StartThreadTask
                      else step_StartEventLoopTask)
           ++ (if thread then []
               else [Stack (AddEventHandler cb_on_device_event 0)])
           ++ [Stack InitServer;
               Stack (app_driver_register_src APP_DRIVER_SRC_MATTER
                        {| update_power := cb_update_matter_power;
                           update_brightness := cb_update_matter_brightness;
                           update_hue := cb_update_matter_hue;
                           update_saturation := cb_update_matter_saturation;
                           update_temperature := cb_update_matter_temperature |})],
         Returned ESP_OK)
    end.
Proof.
  destruct w as [init mem loop tstack ttask store status local].
  unfold app_matter_init, first_failure, failed; cbn [
    PlatformMgr_InitChipStack Platform_MemoryInit PlatformMgr_StartEventLoopTask
    ThreadStackMgr_InitThreadStack ThreadStackMgr_StartThreadTask].
  run_to (init =? CHIP_NO_ERROR).
  run_to (mem =? CHIP_NO_ERROR).
  run_to (loop =? CHIP_NO_ERROR).
  destruct thread; [|reflexivity].
  run_to (tstack =? CHIP_NO_ERROR).
  run_to (ttask =? CHIP_NO_ERROR).
  reflexivity.
Qed.

(** C1, as the code has it. A bring-up that fails returns the code of the
    first step that failed: [ESP_ERR_NO_MEM] when it is the memory pool, and
    the one code [ESP_FAIL] when it is the CHIP stack, the event loop, the
    Thread stack or the Thread task.  Both differ from [ESP_OK], which is
    returned when no step fails. *)
Theorem app_matter_init_failure_codes (thread : bool) (w : world) :
  result (app_matter_init thread w)
  = Returned (match first_failure thread w with
              | Some step_MemoryInit => ESP_ERR_NO_MEM
              | Some _ => ESP_FAIL
              | None => ESP_OK
              end)
  /\ ESP_ERR_NO_MEM <> ESP_FAIL
  /\ ESP_ERR_NO_MEM <> ESP_OK
  /\ ESP_FAIL <> ESP_OK.
Proof.
  split; [|repeat split; discriminate].
  rewrite app_matter_init_run.
  destruct (first_failure thread w) as [[]|]; reflexivity.
Qed.

(** C1 as written fails: a failure of the CHIP stack and a failure of the
    event loop are answered with the same code. *)
Lemma app_matter_init_codes_coincide :
  first_failure false Sample.chip_stack_fails = Some step_InitChipStack
  /\ first_failure false Sample.event_loop_fails = Some step_StartEventLoopTask
  /\ result (app_matter_init false Sample.chip_stack_fails)
     = result (app_matter_init false Sample.event_loop_fails).
Proof. repeat split. Qed.

(** C7. When the start of the event loop task fails the memory pool is shut
    down before [ESP_FAIL] is returned; a bring-up that ends in any other way
    undoes nothing. *)
Theorem memory_shutdown_only_after_event_loop_failure (thread : bool) (w : world) :
  (first_failure thread w = Some step_StartEventLoopTask ->
   app_matter_init thread w
   = ([Stack InitChipStack; Stack (SetBLEAdvertisingEnabled true);
       Stack MemoryInit; Stack StartEventLoopTask; Stack MemoryShutdown;
       ESP_LOG ESP_LOG_ERROR "Failed to launch Matter main task" []],
      Returned ESP_FAIL))
  /\ (first_failure thread w <> Some step_StartEventLoopTask ->
      teardowns (events (app_matter_init thread w)) = []).
Proof.
  rewrite app_matter_init_run. split.
  - intros ->. reflexivity.
  - intros Hother.
    destruct (first_failure thread w) as [[]|]; try reflexivity.
    + contradiction.
    + destruct thread; reflexivity.
Qed.

Lemma memory_shutdown_only_after_event_loop_failure_witness :
  teardowns (events (app_matter_init true Sample.event_loop_fails))
  = [MemoryShutdown]
  /\ teardowns (events (app_matter_init true Sample.chip_stack_fails)) = []
  /\ teardowns (events (app_matter_init true Sample.memory_pool_fails)) = []
  /\ teardowns (events (app_matter_init true Sample.thread_stack_fails)) = [].
Proof.
  split; [|split; [|split]].
  - rewrite (proj1 (memory_shutdown_only_after_event_loop_failure true
                      Sample.event_loop_fails) eq_refl).
    reflexivity.
  - apply (memory_shutdown_only_after_event_loop_failure true
             Sample.chip_stack_fails).
    discriminate.
  - apply (memory_shutdown_only_after_event_loop_failure true
             Sample.memory_pool_fails).
    discriminate.
  - apply (memory_shutdown_only_after_event_loop_failure true
             Sample.thread_stack_fails).
    discriminate.
Defined.

(** ** The reporters *)

Lemma write_then_assert (w : world) (cluster attribute mask data dataType : Z) :
  (status <- emberAfWriteAttribute w 1 cluster attribute mask data dataType ;;
   assert (status =? EMBER_ZCL_STATUS_SUCCESS))
  = ([WriteAttribute 1 cluster attribute mask data dataType],
     if write_status w 1 cluster attribute mask data dataType
        =? EMBER_ZCL_STATUS_SUCCESS
     then Returned tt else Aborted).
Proof.
  unfold emberAfWriteAttribute. rewrite bind_assoc, bind_emit, bind_ret_l.
  unfold assert, events, result. destruct (_ =? _); reflexivity.
Qed.

(** C8. Every attribute write a reporter issues goes to endpoint 1; when the
    store answers it with anything but success the assertion fails and the
    run is aborted, and when it answers success the reporter returns. *)
Theorem reporters_write_endpoint_1_or_abort
    (w : world) (r : report)
    (endpoint cluster attribute mask data dataType : Z) :
  In (WriteAttribute endpoint cluster attribute mask data dataType)
     (events (run_report w r)) ->
  endpoint = 1
  /\ (write_status w endpoint cluster attribute mask data dataType
        <> EMBER_ZCL_STATUS_SUCCESS ->
      result (run_report w r) = Aborted)
  /\ (write_status w endpoint cluster attribute mask data dataType
        = EMBER_ZCL_STATUS_SUCCESS ->
      result (run_report w r) = Returned tt).
Proof.
  assert (Hone : forall c a m d ty,
    In (WriteAttribute endpoint cluster attribute mask data dataType)
       (events (status <- emberAfWriteAttribute w 1 c a m d ty ;;
                assert (status =? EMBER_ZCL_STATUS_SUCCESS))) ->
    endpoint = 1
    /\ (write_status w endpoint cluster attribute mask data dataType
          <> EMBER_ZCL_STATUS_SUCCESS ->
        result (status <- emberAfWriteAttribute w 1 c a m d ty ;;
                assert (status =? EMBER_ZCL_STATUS_SUCCESS)) = Aborted)
    /\ (write_status w endpoint cluster attribute mask data dataType
          = EMBER_ZCL_STATUS_SUCCESS ->
        result (status <- emberAfWriteAttribute w 1 c a m d ty ;;
                assert (status =? EMBER_ZCL_STATUS_SUCCESS)) = Returned tt)).
  { intros c a m d ty. rewrite write_then_assert.
    intros [Heq|[]]. injection Heq as <- <- <- <- <- <-.
    cbn [result snd].
    destruct (Z.eqb_spec (write_status w 1 c a m d ty) EMBER_ZCL_STATUS_SUCCESS);
      repeat split; congruence. }
  destruct r as [power|brightness|hue|saturation|temperature];
    cbn [run_report]; try apply Hone.
  unfold update_matter_temperature.
  destruct (18 <=? temperature).
  - unfold assert at 1 3 5. rewrite !bind_ret_l. apply Hone.
  - intros [].
Qed.

Lemma reporters_write_endpoint_1_or_abort_witness :
  1 = 1
  /\ (write_status Sample.store_rejects_writes 1 ZCL_COLOR_CONTROL_CLUSTER_ID
        ZCL_COLOR_CONTROL_CURRENT_HUE_ATTRIBUTE_ID CLUSTER_MASK_SERVER 85
        ZCL_INT8U_ATTRIBUTE_TYPE <> EMBER_ZCL_STATUS_SUCCESS ->
      result (run_report Sample.store_rejects_writes (report_hue 120)) = Aborted)
  /\ (write_status Sample.store_rejects_writes 1 ZCL_COLOR_CONTROL_CLUSTER_ID
        ZCL_COLOR_CONTROL_CURRENT_HUE_ATTRIBUTE_ID CLUSTER_MASK_SERVER 85
        ZCL_INT8U_ATTRIBUTE_TYPE = EMBER_ZCL_STATUS_SUCCESS ->
      result (run_report Sample.store_rejects_writes (report_hue 120))
      = Returned tt).
Proof.
  apply (reporters_write_endpoint_1_or_abort Sample.store_rejects_writes
           (report_hue 120) 1 ZCL_COLOR_CONTROL_CLUSTER_ID
           ZCL_COLOR_CONTROL_CURRENT_HUE_ATTRIBUTE_ID CLUSTER_MASK_SERVER 85
           ZCL_INT8U_ATTRIBUTE_TYPE).
  left. reflexivity.
Defined.

(** * Further properties *)

(** ** The dispatcher, whatever it is handed *)

(** The run of the colour temperature path. *)
Lemma color_temperature_run
    (w : world) (endpoint mask manufacturer type size : Z) (value : byte_ptr) :
  emberAfPostAttributeChangeCallback w endpoint ZCL_COLOR_CONTROL_CLUSTER_ID
    ZCL_COLOR_CONTROL_COLOR_TEMPERATURE_ATTRIBUTE_ID mask manufacturer type
    size value
  = ([ESP_LOG ESP_LOG_INFO "Handle cluster ID: %d" [ZCL_COLOR_CONTROL_CLUSTER_ID];
      ReadServerAttribute endpoint ZCL_COLOR_CONTROL_CLUSTER_ID
        ZCL_COLOR_CONTROL_COLOR_TEMPERATURE_ATTRIBUTE_ID 2;
      Driver (app_driver_update_and_report_temperature
                (to_uint32 (1000000 /
                   (if temp_mireds_after_read w endpoint =? 0 then 1
                    else temp_mireds_after_read w endpoint)))
                APP_DRIVER_SRC_MATTER)],
     Returned tt).
Proof.
  rewrite (dispatch_run w endpoint _ _ mask manufacturer type size value _
             eq_refl).
  change (ZCL_COLOR_CONTROL_CLUSTER_ID =? ZCL_ON_OFF_CLUSTER_ID) with false.
  change (ZCL_COLOR_CONTROL_CLUSTER_ID =? ZCL_LEVEL_CONTROL_CLUSTER_ID)
    with false.
  change (ZCL_COLOR_CONTROL_CLUSTER_ID =? ZCL_COLOR_CONTROL_CLUSTER_ID)
    with true.
  cbv iota. unfold on_color_control_attribute_changed.
  change (ZCL_COLOR_CONTROL_COLOR_TEMPERATURE_ATTRIBUTE_ID
          =? ZCL_COLOR_CONTROL_CURRENT_HUE_ATTRIBUTE_ID) with false.
  change (ZCL_COLOR_CONTROL_COLOR_TEMPERATURE_ATTRIBUTE_ID
          =? ZCL_COLOR_CONTROL_CURRENT_SATURATION_ATTRIBUTE_ID) with false.
  change (ZCL_COLOR_CONTROL_COLOR_TEMPERATURE_ATTRIBUTE_ID
          =? ZCL_COLOR_CONTROL_COLOR_TEMPERATURE_ATTRIBUTE_ID) with true.
  cbv iota. unfold emberAfReadServerAttribute.
  rewrite bind_assoc, bind_emit, bind_ret_l.
  reflexivity.
Qed.

Lemma miredsToKelvin_code (mireds : Z) :
  0 <= mireds <= UINT16_MAX ->
  to_uint32 (1000000 / (if mireds =? 0 then 1 else mireds))
  = miredsToKelvin mireds.
Proof.
  intros Hm. unfold UINT16_MAX in Hm. unfold miredsToKelvin, to_uint32.
  destruct (Z.eqb_spec mireds 0) as [->|Hne]; [reflexivity|].
  rewrite Z.max_l by lia. apply Z.mod_small. split.
  - apply Z.div_pos; lia.
  - apply Z.le_lt_trans with 1000000; [|reflexivity].
    apply Z.div_le_upper_bound; lia.
Qed.

Lemma miredsToKelvin_bounds (mireds : Z) :
  0 <= mireds <= UINT16_MAX -> 15 <= miredsToKelvin mireds <= 1000000.
Proof.
  intros Hm. unfold UINT16_MAX in Hm. unfold miredsToKelvin. split.
  - apply Z.div_le_lower_bound; lia.
  - apply Z.div_le_upper_bound; lia.
Qed.

(** Split a run of the dispatcher into the runs of its branches. *)
Ltac dispatch_cases w endpoint cluster attribute mask manufacturer type size value :=
  rewrite (dispatch_run w endpoint cluster attribute mask manufacturer type
             size value _ eq_refl);
  unfold on_on_off_attribute_changed, on_level_control_atrribute_changed,
    on_color_control_attribute_changed, emberAfReadServerAttribute;
  rewrite ?bind_assoc, ?bind_emit, ?bind_ret_l;
  destruct (cluster =? ZCL_ON_OFF_CLUSTER_ID);
    [destruct (attribute =? ZCL_ON_OFF_ATTRIBUTE_ID)|];
    [| |destruct (cluster =? ZCL_LEVEL_CONTROL_CLUSTER_ID);
          [destruct (attribute =? ZCL_CURRENT_LEVEL_ATTRIBUTE_ID)|]];
    [| | | |destruct (cluster =? ZCL_COLOR_CONTROL_CLUSTER_ID);
            [destruct (attribute =? ZCL_COLOR_CONTROL_CURRENT_HUE_ATTRIBUTE_ID);
               [|destruct (attribute
                           =? ZCL_COLOR_CONTROL_CURRENT_SATURATION_ATTRIBUTE_ID);
                  [|destruct (attribute
                              =? ZCL_COLOR_CONTROL_COLOR_TEMPERATURE_ATTRIBUTE_ID)]]|]].

(** X1. Whatever event it is handed, the dispatcher returns without aborting,
    writes nothing to the attribute store, reads it at most once and calls at
    most one driver function, always under the source tag
    [APP_DRIVER_SRC_MATTER]. *)
Theorem dispatcher_only_reads_and_drives
    (w : world) (endpoint cluster attribute mask manufacturer type size : Z)
    (value : byte_ptr) :
  result (emberAfPostAttributeChangeCallback w endpoint cluster attribute mask
    manufacturer type size value) = Returned tt
  /\ written_data (events (emberAfPostAttributeChangeCallback w endpoint cluster
       attribute mask manufacturer type size value)) = []
  /\ (reads (events (emberAfPostAttributeChangeCallback w endpoint cluster
        attribute mask manufacturer type size value)) <= 1)%nat
  /\ (List.length (driver_calls (events (emberAfPostAttributeChangeCallback w
        endpoint cluster attribute mask manufacturer type size value))) <= 1)%nat
  /\ Forall (fun c => driver_src c = APP_DRIVER_SRC_MATTER)
       (driver_calls (events (emberAfPostAttributeChangeCallback w endpoint
          cluster attribute mask manufacturer type size value))).
Proof.
  dispatch_cases w endpoint cluster attribute mask manufacturer type size value;
    cbn; repeat split; auto using Forall_nil, Forall_cons.
Qed.

(** X2. Only the colour temperature path looks at the endpoint and at the
    attribute store: an event for any other cluster or attribute runs the same
    on every endpoint and in every state of the store. *)
Theorem dispatcher_is_endpoint_blind
    (w w' : world) (endpoint endpoint' : Z)
    (cluster attribute mask manufacturer type size : Z) (value : byte_ptr) :
  (cluster =? ZCL_COLOR_CONTROL_CLUSTER_ID)
  && (attribute =? ZCL_COLOR_CONTROL_COLOR_TEMPERATURE_ATTRIBUTE_ID) = false ->
  emberAfPostAttributeChangeCallback w endpoint cluster attribute mask
    manufacturer type size value
  = emberAfPostAttributeChangeCallback w' endpoint' cluster attribute mask
      manufacturer type size value.
Proof.
  intros Hother.
  rewrite (dispatch_run w endpoint cluster attribute mask manufacturer type
             size value _ eq_refl).
  rewrite (dispatch_run w' endpoint' cluster attribute mask manufacturer type
             size value _ eq_refl).
  unfold on_on_off_attribute_changed, on_level_control_atrribute_changed,
    on_color_control_attribute_changed.
  destruct (cluster =? ZCL_ON_OFF_CLUSTER_ID); [reflexivity|].
  destruct (cluster =? ZCL_LEVEL_CONTROL_CLUSTER_ID); [reflexivity|].
  destruct (cluster =? ZCL_COLOR_CONTROL_CLUSTER_ID); [|reflexivity].
  destruct (attribute =? ZCL_COLOR_CONTROL_CURRENT_HUE_ATTRIBUTE_ID);
    [reflexivity|].
  destruct (attribute =? ZCL_COLOR_CONTROL_CURRENT_SATURATION_ATTRIBUTE_ID);
    [reflexivity|].
  destruct (attribute =? ZCL_COLOR_CONTROL_COLOR_TEMPERATURE_ATTRIBUTE_ID);
    [discriminate|reflexivity].
Qed.

Lemma dispatcher_is_endpoint_blind_witness :
  emberAfPostAttributeChangeCallback Sample.healthy 1 ZCL_LEVEL_CONTROL_CLUSTER_ID
    ZCL_CURRENT_LEVEL_ATTRIBUTE_ID 0 0 ZCL_INT8U_ATTRIBUTE_TYPE 1 (200, [])
  = emberAfPostAttributeChangeCallback Sample.store_holds_zero 2
      ZCL_LEVEL_CONTROL_CLUSTER_ID ZCL_CURRENT_LEVEL_ATTRIBUTE_ID 0 0
      ZCL_INT8U_ATTRIBUTE_TYPE 1 (200, []).
Proof.
  apply (dispatcher_is_endpoint_blind Sample.healthy Sample.store_holds_zero
           1 2 ZCL_LEVEL_CONTROL_CLUSTER_ID ZCL_CURRENT_LEVEL_ATTRIBUTE_ID 0 0
           ZCL_INT8U_ATTRIBUTE_TYPE 1 (200, [])).
  reflexivity.
Defined.

(** X3. The kelvin value the dispatcher hands to the driver is never the
    result of a division by zero and always lies between 15 and 1_000_000,
    whether the read of the attribute store succeeded or not, as long as what
    it leaves in the 16-bit local is a 16-bit value. *)
Theorem inbound_kelvin_bounds
    (w : world) (endpoint cluster attribute mask manufacturer type size : Z)
    (value : byte_ptr) (kelvin : Z) (src : app_driver_src_t) :
  0 <= temp_mireds_after_read w endpoint <= UINT16_MAX ->
  In (app_driver_update_and_report_temperature kelvin src)
     (driver_calls (events (emberAfPostAttributeChangeCallback w endpoint
        cluster attribute mask manufacturer type size value))) ->
  15 <= kelvin <= 1000000.
Proof.
  intros Hm.
  pose proof (miredsToKelvin_code _ Hm) as Hcode.
  pose proof (miredsToKelvin_bounds _ Hm) as Hb.
  unfold temp_mireds_after_read in Hcode.
  dispatch_cases w endpoint cluster attribute mask manufacturer type size value;
    cbn -[Z.div to_uint32]; try tauto; intros [Heq|[]]; try discriminate.
  injection Heq as <- _. rewrite Hcode. exact Hb.
Qed.

Lemma inbound_kelvin_bounds_witness : 15 <= 4000 <= 1000000.
Proof.
  apply (inbound_kelvin_bounds Sample.healthy 1 ZCL_COLOR_CONTROL_CLUSTER_ID
           ZCL_COLOR_CONTROL_COLOR_TEMPERATURE_ATTRIBUTE_ID 0 0
           ZCL_INT16U_ATTRIBUTE_TYPE 2 (250, [0]) 4000 APP_DRIVER_SRC_MATTER).
  - unfold UINT16_MAX. cbn. lia.
  - left. reflexivity.
Defined.

(** ** Colour temperature, there and back *)

Lemma color_temperature_driver_call
    (w : world) (endpoint mask manufacturer type size : Z) (value : byte_ptr)
    (mireds : Z) :
  attribute_store w endpoint ZCL_COLOR_CONTROL_CLUSTER_ID
    ZCL_COLOR_CONTROL_COLOR_TEMPERATURE_ATTRIBUTE_ID = Some mireds ->
  0 <= mireds <= UINT16_MAX ->
  driver_calls (events (emberAfPostAttributeChangeCallback w endpoint
    ZCL_COLOR_CONTROL_CLUSTER_ID
    ZCL_COLOR_CONTROL_COLOR_TEMPERATURE_ATTRIBUTE_ID mask manufacturer type
    size value))
  = [app_driver_update_and_report_temperature (miredsToKelvin mireds)
       APP_DRIVER_SRC_MATTER].
Proof.
  intros Hstore Hm. rewrite color_temperature_run.
  unfold temp_mireds_after_read. rewrite Hstore.
  rewrite (miredsToKelvin_code mireds Hm). reflexivity.
Qed.

Lemma miredsToKelvin_precondition (mireds : Z) :
  0 <= mireds ->
  (mireds <= 55555 -> 18 <= miredsToKelvin mireds)
  /\ (55555 < mireds -> miredsToKelvin mireds < 18).
Proof.
  intros Hm. unfold miredsToKelvin. split; intros H.
  - apply Z.div_le_lower_bound; lia.
  - apply Z.div_lt_upper_bound; lia.
Qed.

(** Dividing 1_000_000 twice by way of [x]: never less than [x], and [x]
    itself up to 1000. *)
Lemma reciprocal_twice (x : Z) :
  1 <= x <= 1000000 ->
  x <= 1000000 / (1000000 / x)
  /\ (x <= 1000 -> 1000000 / (1000000 / x) = x).
Proof.
  intros Hx.
  assert (Hq : 1 <= 1000000 / x) by (apply Z.div_le_lower_bound; lia).
  pose proof (Z.mul_div_le 1000000 x ltac:(lia)) as Hle.
  split.
  - apply Z.div_le_lower_bound; lia.
  - intros Hsmall.
    assert (Hbig : 1000 <= 1000000 / x) by (apply Z.div_le_lower_bound; lia).
    pose proof (Z.div_mod 1000000 x ltac:(lia)) as Hdm.
    pose proof (Z.mod_pos_bound 1000000 x ltac:(lia)) as Hr.
    symmetry. apply Z.div_unique with (r := 1000000 - (1000000 / x) * x).
    + left. nia.
    + lia.
Qed.

(** X4. The kelvin value the dispatcher derives from a stored colour
    temperature meets the precondition of [update_matter_temperature] exactly
    when the stored value is at most 55555 mireds: handed back to the
    reporter it is then written, while for every larger 16-bit value the
    reporter aborts. *)
Theorem inbound_kelvin_and_the_reporter
    (w w' : world) (endpoint mask manufacturer type size : Z) (value : byte_ptr)
    (mireds : Z) :
  attribute_store w endpoint ZCL_COLOR_CONTROL_CLUSTER_ID
    ZCL_COLOR_CONTROL_COLOR_TEMPERATURE_ATTRIBUTE_ID = Some mireds ->
  0 <= mireds <= UINT16_MAX ->
  exists kelvin,
    driver_calls (events (emberAfPostAttributeChangeCallback w endpoint
      ZCL_COLOR_CONTROL_CLUSTER_ID
      ZCL_COLOR_CONTROL_COLOR_TEMPERATURE_ATTRIBUTE_ID mask manufacturer type
      size value))
    = [app_driver_update_and_report_temperature kelvin APP_DRIVER_SRC_MATTER]
    /\ (mireds <= 55555 ->
        List.length (events (update_matter_temperature w' kelvin)) = 1%nat)
    /\ (55555 < mireds ->
        update_matter_temperature w' kelvin = ([], Aborted)).
Proof.
  intros Hstore Hm. exists (miredsToKelvin mireds).
  destruct (miredsToKelvin_precondition mireds (proj1 Hm)) as [Hok Hbad].
  split; [|split].
  - apply color_temperature_driver_call; assumption.
  - intros Hle. rewrite update_matter_temperature_run by auto. reflexivity.
  - intros Hgt. specialize (Hbad Hgt). unfold update_matter_temperature.
    destruct (Z.leb_spec 18 (miredsToKelvin mireds)); [lia|reflexivity].
Qed.

Lemma inbound_kelvin_and_the_reporter_witness :
  exists kelvin,
    driver_calls (events (emberAfPostAttributeChangeCallback
      (Sample.make 0 0 0 0 0 60000 EMBER_ZCL_STATUS_SUCCESS) 1
      ZCL_COLOR_CONTROL_CLUSTER_ID
      ZCL_COLOR_CONTROL_COLOR_TEMPERATURE_ATTRIBUTE_ID 0 0
      ZCL_INT16U_ATTRIBUTE_TYPE 2 (0x60, [0xea])))
    = [app_driver_update_and_report_temperature kelvin APP_DRIVER_SRC_MATTER]
    /\ (60000 <= 55555 ->
        List.length (events (update_matter_temperature Sample.healthy kelvin))
        = 1%nat)
    /\ (55555 < 60000 ->
        update_matter_temperature Sample.healthy kelvin = ([], Aborted)).
Proof.
  apply (inbound_kelvin_and_the_reporter
           (Sample.make 0 0 0 0 0 60000 EMBER_ZCL_STATUS_SUCCESS) Sample.healthy
           1 0 0 ZCL_INT16U_ATTRIBUTE_TYPE 2 (0x60, [0xea]) 60000).
  - reflexivity.
  - unfold UINT16_MAX. lia.
Defined.

(** X5. A stored colour temperature between 1 and 55555 mireds that goes to
    the driver as kelvin and comes back through [update_matter_temperature]
    is written as a mireds value that is never smaller than the stored one,
    and equal to it up to 1000 mireds. *)
Theorem mireds_round_trip
    (w w' : world) (endpoint mask manufacturer type size : Z) (value : byte_ptr)
    (mireds : Z) :
  attribute_store w endpoint ZCL_COLOR_CONTROL_CLUSTER_ID
    ZCL_COLOR_CONTROL_COLOR_TEMPERATURE_ATTRIBUTE_ID = Some mireds ->
  1 <= mireds <= 55555 ->
  exists kelvin back,
    driver_calls (events (emberAfPostAttributeChangeCallback w endpoint
      ZCL_COLOR_CONTROL_CLUSTER_ID
      ZCL_COLOR_CONTROL_COLOR_TEMPERATURE_ATTRIBUTE_ID mask manufacturer type
      size value))
    = [app_driver_update_and_report_temperature kelvin APP_DRIVER_SRC_MATTER]
    /\ written_data (events (update_matter_temperature w' kelvin)) = [back]
    /\ mireds <= back
    /\ (mireds <= 1000 -> back = mireds).
Proof.
  intros Hstore Hm.
  exists (miredsToKelvin mireds), (kelvinToMireds (miredsToKelvin mireds)).
  destruct (miredsToKelvin_precondition mireds ltac:(lia)) as [Hok _].
  split; [|split].
  - apply color_temperature_driver_call; [assumption|unfold UINT16_MAX; lia].
  - rewrite update_matter_temperature_run by (apply Hok; lia). reflexivity.
  - unfold kelvinToMireds, miredsToKelvin. rewrite Z.max_l by lia.
    apply reciprocal_twice. lia.
Qed.

Lemma mireds_round_trip_witness :
  exists kelvin back,
    driver_calls (events (emberAfPostAttributeChangeCallback Sample.healthy 1
      ZCL_COLOR_CONTROL_CLUSTER_ID
      ZCL_COLOR_CONTROL_COLOR_TEMPERATURE_ATTRIBUTE_ID 0 0
      ZCL_INT16U_ATTRIBUTE_TYPE 2 (250, [0])))
    = [app_driver_update_and_report_temperature kelvin APP_DRIVER_SRC_MATTER]
    /\ written_data (events (update_matter_temperature Sample.healthy kelvin))
       = [back]
    /\ 250 <= back
    /\ (250 <= 1000 -> back = 250).
Proof.
  apply (mireds_round_trip Sample.healthy Sample.healthy 1 0 0
           ZCL_INT16U_ATTRIBUTE_TYPE 2 (250, [0]) 250).
  - reflexivity.
  - lia.
Defined.

(** X6. A kelvin value of at least 18 that [update_matter_temperature] writes
    as mireds and the dispatcher then reads back from the store reaches the
    driver as a value of at most 1_000_000 that is never below the original,
    save that an original above 1_000_000 comes back as 1_000_000; up to 1000
    kelvin it comes back unchanged. *)
Theorem kelvin_round_trip
    (w w' : world) (endpoint mask manufacturer type size : Z) (value : byte_ptr)
    (kelvin mireds : Z) :
  18 <= kelvin <= UINT32_MAX ->
  written_data (events (update_matter_temperature w kelvin)) = [mireds] ->
  attribute_store w' endpoint ZCL_COLOR_CONTROL_CLUSTER_ID
    ZCL_COLOR_CONTROL_COLOR_TEMPERATURE_ATTRIBUTE_ID = Some mireds ->
  exists back,
    driver_calls (events (emberAfPostAttributeChangeCallback w' endpoint
      ZCL_COLOR_CONTROL_CLUSTER_ID
      ZCL_COLOR_CONTROL_COLOR_TEMPERATURE_ATTRIBUTE_ID mask manufacturer type
      size value))
    = [app_driver_update_and_report_temperature back APP_DRIVER_SRC_MATTER]
    /\ Z.min kelvin 1000000 <= back <= 1000000
    /\ (kelvin <= 1000 -> back = kelvin).
Proof.
  intros [Hk _] Hwritten Hstore.
  rewrite update_matter_temperature_run in Hwritten by assumption.
  injection Hwritten as <-.
  pose proof (kelvinToMireds_range kelvin Hk) as [Hrange Hone].
  exists (miredsToKelvin (kelvinToMireds kelvin)).
  split; [|split].
  - apply color_temperature_driver_call; [assumption|unfold UINT16_MAX; lia].
  - split; [|apply miredsToKelvin_bounds; unfold UINT16_MAX; lia].
    destruct (Z_le_gt_dec kelvin 1000000) as [Hle|Hgt].
    + rewrite Z.min_l by assumption.
      unfold miredsToKelvin. rewrite Z.max_l by (apply Hone; assumption).
      apply reciprocal_twice. lia.
    + rewrite Z.min_r by lia. unfold miredsToKelvin, kelvinToMireds.
      rewrite (Z.div_small 1000000 kelvin) by lia. reflexivity.
  - intros Hsmall. unfold miredsToKelvin.
    rewrite Z.max_l by (apply Hone; lia).
    apply reciprocal_twice; lia.
Qed.

Lemma kelvin_round_trip_witness :
  exists back,
    driver_calls (events (emberAfPostAttributeChangeCallback Sample.healthy 1
      ZCL_COLOR_CONTROL_CLUSTER_ID
      ZCL_COLOR_CONTROL_COLOR_TEMPERATURE_ATTRIBUTE_ID 0 0
      ZCL_INT16U_ATTRIBUTE_TYPE 2 (250, [0])))
    = [app_driver_update_and_report_temperature back APP_DRIVER_SRC_MATTER]
    /\ Z.min 4000 1000000 <= back <= 1000000
    /\ (4000 <= 1000 -> back = 4000).
Proof.
  apply (kelvin_round_trip Sample.healthy Sample.healthy 1 0 0
           ZCL_INT16U_ATTRIBUTE_TYPE 2 (250, [0]) 4000 250).
  - unfold UINT32_MAX. lia.
  - reflexivity.
  - reflexivity.
Defined.

(** ** Bring-up, step by step *)

(** Name the answer of every fallible step and whether it is an error. *)
Ltac bring_up_cases thread w :=
  rewrite ?(app_matter_init_run thread w);
  unfold first_failure, failed;
  destruct (Z.eqb_spec (PlatformMgr_InitChipStack w) CHIP_NO_ERROR);
  destruct (Z.eqb_spec (Platform_MemoryInit w) CHIP_NO_ERROR);
  destruct (Z.eqb_spec (PlatformMgr_StartEventLoopTask w) CHIP_NO_ERROR);
  destruct (Z.eqb_spec (ThreadStackMgr_InitThreadStack w) CHIP_NO_ERROR);
  destruct (Z.eqb_spec (ThreadStackMgr_StartThreadTask w) CHIP_NO_ERROR);
  cbn [negb andb calls_up_to compensation failure_code failure_message app
       events result fst snd].

Ltac settle_membership :=
  unfold ESP_OK, ESP_FAIL, ESP_ERR_NO_MEM, matter_callbacks, not;
  cbn [In];
  repeat split; intros;
  repeat match goal with
         | H : _ /\ _ |- _ => destruct H
         | H : _ \/ _ |- _ => destruct H
         | H : False |- _ => destruct H
         | H : Stack _ = Stack _ |- _ => injection H as H
         | H : ESP_LOG _ _ _ = Stack _ |- _ => discriminate H
         end;
  subst; try discriminate; try contradiction; try congruence; auto 12.

(** X7. [app_matter_init] returns [ESP_OK] exactly when no step fails, and
    the callback set is registered with the driver exactly in that case, under
    the tag [APP_DRIVER_SRC_MATTER] and with each field bound to the reporter
    of the same quantity; the server is started in that case only. *)
Theorem callbacks_registered_iff_ok
    (thread : bool) (w : world) (src : app_driver_src_t)
    (callbacks : app_driver_param_callback_t) :
  (result (app_matter_init thread w) = Returned ESP_OK
   <-> first_failure thread w = None)
  /\ (In (Stack (app_driver_register_src src callbacks))
         (events (app_matter_init thread w))
      <-> result (app_matter_init thread w) = Returned ESP_OK
          /\ src = APP_DRIVER_SRC_MATTER /\ callbacks = matter_callbacks)
  /\ (In (Stack InitServer) (events (app_matter_init thread w))
      <-> result (app_matter_init thread w) = Returned ESP_OK).
Proof.
  destruct thread; [bring_up_cases true w | bring_up_cases false w];
    settle_membership.
Qed.

(** X8. A bring-up that fails logs exactly one error, the line of the step
    that failed, as the last thing it does; a bring-up that succeeds logs no
    error at all. *)
Theorem one_error_line_per_failure (thread : bool) (w : world) :
  (first_failure thread w = None ->
   errors (events (app_matter_init thread w)) = 0%nat)
  /\ (forall s, first_failure thread w = Some s ->
      errors (events (app_matter_init thread w)) = 1%nat
      /\ exists before,
           events (app_matter_init thread w)
           = before ++ [ESP_LOG ESP_LOG_ERROR (failure_message s) []]).
Proof.
  rewrite app_matter_init_run. split.
  - intros ->. destruct thread; reflexivity.
  - intros s ->. split.
    + destruct s; reflexivity.
    + exists (calls_up_to s ++ compensation s). cbn [events fst].
      now rewrite app_assoc.
Qed.

Lemma one_error_line_per_failure_witness :
  errors (events (app_matter_init true Sample.healthy)) = 0%nat
  /\ errors (events (app_matter_init true Sample.thread_stack_fails)) = 1%nat.
Proof.
  split.
  - apply (one_error_line_per_failure true Sample.healthy). reflexivity.
  - apply (proj2 (one_error_line_per_failure true Sample.thread_stack_fails)
             step_InitThreadStack).
    reflexivity.
Defined.

(** X9. Each step of the bring-up is reached exactly when every fallible step
    before it succeeded: BLE advertising is enabled and the memory pool is
    initialised exactly when the CHIP stack came up, the event loop task is
    started exactly when the memory pool did too, and the device event
    observer is registered exactly when the event loop task started. *)
Theorem bring_up_steps_are_gated (thread : bool) (w : world) :
  (In (Stack (SetBLEAdvertisingEnabled true)) (events (app_matter_init thread w))
   <-> PlatformMgr_InitChipStack w = CHIP_NO_ERROR)
  /\ (In (Stack MemoryInit) (events (app_matter_init thread w))
      <-> PlatformMgr_InitChipStack w = CHIP_NO_ERROR)
  /\ (In (Stack StartEventLoopTask) (events (app_matter_init thread w))
      <-> PlatformMgr_InitChipStack w = CHIP_NO_ERROR
          /\ Platform_MemoryInit w = CHIP_NO_ERROR)
  /\ (In (Stack (AddEventHandler cb_on_device_event 0))
         (events (app_matter_init thread w))
      <-> PlatformMgr_InitChipStack w = CHIP_NO_ERROR
          /\ Platform_MemoryInit w = CHIP_NO_ERROR
          /\ PlatformMgr_StartEventLoopTask w = CHIP_NO_ERROR).
Proof.
  destruct thread; [bring_up_cases true w | bring_up_cases false w];
    settle_membership.
Qed.

(** X10. In a build without Thread the Thread stack is never touched, and
    what its calls would answer has no bearing on the bring-up. *)
Theorem thread_steps_only_in_thread_build (w w' : world) :
  PlatformMgr_InitChipStack w = PlatformMgr_InitChipStack w' ->
  Platform_MemoryInit w = Platform_MemoryInit w' ->
  PlatformMgr_StartEventLoopTask w = PlatformMgr_StartEventLoopTask w' ->
  app_matter_init false w = app_matter_init false w'
  /\ ~ In (Stack InitThreadStack) (events (app_matter_init false w))
  /\ ~ In (Stack StartThreadTask) (events (app_matter_init false w)).
Proof.
  intros Hinit Hmem Hloop. split.
  - rewrite !app_matter_init_run. unfold first_failure.
    rewrite Hinit, Hmem, Hloop. reflexivity.
  - bring_up_cases false w; settle_membership.
Qed.

Lemma thread_steps_only_in_thread_build_witness :
  app_matter_init false Sample.healthy
  = app_matter_init false Sample.thread_stack_fails
  /\ ~ In (Stack InitThreadStack) (events (app_matter_init false Sample.healthy))
  /\ ~ In (Stack StartThreadTask) (events (app_matter_init false Sample.healthy)).
Proof.
  apply (thread_steps_only_in_thread_build Sample.healthy
           Sample.thread_stack_fails); reflexivity.
Defined.

(** ** The reporters and the dispatcher together *)

Lemma update_matter_hue_run (w : world) (hue : Z) :
  events (update_matter_hue w hue)
  = [WriteAttribute 1 ZCL_COLOR_CONTROL_CLUSTER_ID
       ZCL_COLOR_CONTROL_CURRENT_HUE_ATTRIBUTE_ID CLUSTER_MASK_SERVER
       (to_uint8 (REMAP_TO_RANGE hue HUE_MAX HUE_ATTRIBUTE_MAX))
       ZCL_INT8U_ATTRIBUTE_TYPE].
Proof. unfold update_matter_hue. now rewrite write_then_assert. Qed.

Lemma update_matter_saturation_run (w : world) (saturation : Z) :
  events (update_matter_saturation w saturation)
  = [WriteAttribute 1 ZCL_COLOR_CONTROL_CLUSTER_ID
       ZCL_COLOR_CONTROL_CURRENT_SATURATION_ATTRIBUTE_ID CLUSTER_MASK_SERVER
       (to_uint8 (REMAP_TO_RANGE (to_uint16 saturation) SATURATION_MAX
                    SATURATION_ATTRIBUTE_MAX))
       ZCL_INT8U_ATTRIBUTE_TYPE].
Proof. unfold update_matter_saturation. now rewrite write_then_assert. Qed.

Lemma hue_driver_call
    (w : world) (endpoint mask manufacturer type size : Z) (value : byte_ptr) :
  driver_calls (events (emberAfPostAttributeChangeCallback w endpoint
    ZCL_COLOR_CONTROL_CLUSTER_ID ZCL_COLOR_CONTROL_CURRENT_HUE_ATTRIBUTE_ID
    mask manufacturer type size value))
  = [app_driver_update_and_report_hue
       (to_uint16 (REMAP_TO_RANGE (to_uint16 (deref value)) HUE_ATTRIBUTE_MAX
                     HUE_MAX))
       APP_DRIVER_SRC_MATTER].
Proof. reflexivity. Qed.

Lemma saturation_driver_call
    (w : world) (endpoint mask manufacturer type size : Z) (value : byte_ptr) :
  driver_calls (events (emberAfPostAttributeChangeCallback w endpoint
    ZCL_COLOR_CONTROL_CLUSTER_ID
    ZCL_COLOR_CONTROL_CURRENT_SATURATION_ATTRIBUTE_ID
    mask manufacturer type size value))
  = [app_driver_update_and_report_saturation
       (to_uint8 (REMAP_TO_RANGE (to_uint16 (deref value))
                    SATURATION_ATTRIBUTE_MAX SATURATION_MAX))
       APP_DRIVER_SRC_MATTER].
Proof. reflexivity. Qed.

Lemma to_uint8_small (x : Z) : 0 <= x <= 255 -> to_uint8 x = x.
Proof. intros H. apply Z.mod_small. change (2 ^ 8) with 256. lia. Qed.

Lemma to_uint16_small (x : Z) : 0 <= x <= 65535 -> to_uint16 x = x.
Proof. intros H. apply Z.mod_small. change (2 ^ 16) with 65536. lia. Qed.

(** X11. A reporter does one thing: it issues a single server-side write, at
    endpoint 1, to an attribute the dispatcher acts on, and neither calls the
    driver nor reads the store; the one run that writes nothing is the
    temperature report below 18 kelvin, which aborts. *)
Theorem reporter_runs_one_write (w : world) (r : report) :
  driver_calls (events (run_report w r)) = []
  /\ reads (events (run_report w r)) = 0%nat
  /\ ((exists cluster attribute data dataType,
         events (run_report w r)
         = [WriteAttribute 1 cluster attribute CLUSTER_MASK_SERVER data dataType]
         /\ recognized_attribute cluster attribute = true)
      \/ (exists temperature,
            r = report_temperature temperature /\ temperature < 18
            /\ run_report w r = ([], Aborted))).
Proof.
  destruct r as [power|brightness|hue|saturation|temperature];
    cbn [run_report].
  1-4: unfold update_matter_power, update_matter_brightness, update_matter_hue,
         update_matter_saturation;
       rewrite write_then_assert; cbn [events fst driver_calls reads];
       repeat split; left; do 4 eexists; split; reflexivity.
  destruct (Z.leb_spec 18 temperature) as [Hge|Hlt].
  - rewrite (update_matter_temperature_run w temperature Hge).
    cbn [events fst driver_calls reads].
    repeat split; left; do 4 eexists; split; reflexivity.
  - assert (Hrun : update_matter_temperature w temperature = ([], Aborted)).
    { unfold update_matter_temperature.
      destruct (Z.leb_spec 18 temperature); [lia|reflexivity]. }
    rewrite Hrun. repeat split. right. exists temperature. auto.
Qed.

(** X12. What [update_matter_power] and [update_matter_brightness] write is
    what the dispatcher understands: notified of that write, with whatever
    manufacturer code and size, it calls the driver entry of the same quantity
    with the value that was reported. *)
Theorem power_and_brightness_echo
    (w w' : world) (power : bool) (brightness manufacturer size : Z)
    (more : list Z) :
  (exists endpoint cluster attribute mask data dataType,
     events (update_matter_power w power)
     = [WriteAttribute endpoint cluster attribute mask data dataType]
     /\ driver_calls (events (emberAfPostAttributeChangeCallback w' endpoint
          cluster attribute mask manufacturer dataType size (data, more)))
        = [app_driver_update_and_report_power (if power then 1 else 0)
             APP_DRIVER_SRC_MATTER])
  /\ (exists endpoint cluster attribute mask data dataType,
        events (update_matter_brightness w brightness)
        = [WriteAttribute endpoint cluster attribute mask data dataType]
        /\ driver_calls (events (emberAfPostAttributeChangeCallback w' endpoint
             cluster attribute mask manufacturer dataType size (data, more)))
           = [app_driver_update_and_report_brightness brightness
                APP_DRIVER_SRC_MATTER]).
Proof.
  split; do 6 eexists;
    (split;
     [unfold update_matter_power, update_matter_brightness;
      rewrite write_then_assert; reflexivity
     |reflexivity]).
Qed.

(** X13. A hue of 0 to 359 degrees that [update_matter_hue] writes and the
    dispatcher is then notified of reaches the driver within 1 degree of the
    reported hue; a saturation of 0 to 100 percent reported by
    [update_matter_saturation] comes back to the driver unchanged. *)
Theorem hue_and_saturation_echo
    (w w' : world) (hue saturation manufacturer size : Z) (more : list Z) :
  0 <= hue <= HUE_MAX ->
  0 <= saturation <= SATURATION_MAX ->
  (exists endpoint cluster attribute mask data dataType back,
     events (update_matter_hue w hue)
     = [WriteAttribute endpoint cluster attribute mask data dataType]
     /\ driver_calls (events (emberAfPostAttributeChangeCallback w' endpoint
          cluster attribute mask manufacturer dataType size (data, more)))
        = [app_driver_update_and_report_hue back APP_DRIVER_SRC_MATTER]
     /\ Z.abs (back - hue) <= 1)
  /\ (exists endpoint cluster attribute mask data dataType,
        events (update_matter_saturation w saturation)
        = [WriteAttribute endpoint cluster attribute mask data dataType]
        /\ driver_calls (events (emberAfPostAttributeChangeCallback w' endpoint
             cluster attribute mask manufacturer dataType size (data, more)))
           = [app_driver_update_and_report_saturation saturation
                APP_DRIVER_SRC_MATTER]).
Proof.
  intros Hhue Hsat.
  pose proof (REMAP_TO_RANGE_bounds hue HUE_MAX HUE_ATTRIBUTE_MAX
                eq_refl ltac:(discriminate) Hhue) as Hwire.
  pose proof (REMAP_TO_RANGE_nearest hue HUE_MAX HUE_ATTRIBUTE_MAX eq_refl)
    as Hnear.
  pose proof (REMAP_TO_RANGE_bounds
                (REMAP_TO_RANGE hue HUE_MAX HUE_ATTRIBUTE_MAX)
                HUE_ATTRIBUTE_MAX HUE_MAX eq_refl ltac:(discriminate) Hwire)
    as Hback.
  pose proof (REMAP_TO_RANGE_nearest
                (REMAP_TO_RANGE hue HUE_MAX HUE_ATTRIBUTE_MAX)
                HUE_ATTRIBUTE_MAX HUE_MAX eq_refl) as Hnear'.
  pose proof (REMAP_TO_RANGE_bounds saturation SATURATION_MAX
                SATURATION_ATTRIBUTE_MAX eq_refl ltac:(discriminate) Hsat)
    as Swire.
  pose proof (REMAP_TO_RANGE_nearest saturation SATURATION_MAX
                SATURATION_ATTRIBUTE_MAX eq_refl) as Snear.
  pose proof (REMAP_TO_RANGE_bounds
                (REMAP_TO_RANGE saturation SATURATION_MAX
                   SATURATION_ATTRIBUTE_MAX)
                SATURATION_ATTRIBUTE_MAX SATURATION_MAX eq_refl
                ltac:(discriminate) Swire) as Sback.
  pose proof (REMAP_TO_RANGE_nearest
                (REMAP_TO_RANGE saturation SATURATION_MAX
                   SATURATION_ATTRIBUTE_MAX)
                SATURATION_ATTRIBUTE_MAX SATURATION_MAX eq_refl) as Snear'.
  unfold nearest in *.
  unfold HUE_MAX, HUE_ATTRIBUTE_MAX, SATURATION_MAX, SATURATION_ATTRIBUTE_MAX
    in Hhue, Hsat, Hwire, Hnear, Hback, Hnear', Swire, Snear, Sback, Snear'.
  split.
  - do 7 eexists. split; [apply update_matter_hue_run|].
    split; [apply hue_driver_call|].
    cbn [deref fst]. unfold HUE_MAX, HUE_ATTRIBUTE_MAX.
    rewrite (to_uint8_small (REMAP_TO_RANGE hue 359 254)) by lia.
    rewrite (to_uint16_small (REMAP_TO_RANGE hue 359 254)) by lia.
    rewrite to_uint16_small by lia.
    lia.
  - do 6 eexists. split; [apply update_matter_saturation_run|].
    rewrite saturation_driver_call. cbn [deref fst].
    unfold SATURATION_MAX, SATURATION_ATTRIBUTE_MAX.
    rewrite (to_uint16_small saturation) by lia.
    rewrite (to_uint8_small (REMAP_TO_RANGE saturation 100 254)) by lia.
    rewrite (to_uint16_small (REMAP_TO_RANGE saturation 100 254)) by lia.
    rewrite to_uint8_small by lia.
    do 2 f_equal. lia.
Qed.

Lemma hue_and_saturation_echo_witness :
  (exists endpoint cluster attribute mask data dataType back,
     events (update_matter_hue Sample.healthy 120)
     = [WriteAttribute endpoint cluster attribute mask data dataType]
     /\ driver_calls (events (emberAfPostAttributeChangeCallback Sample.healthy
          endpoint cluster attribute mask 0 dataType 1 (data, [])))
        = [app_driver_update_and_report_hue back APP_DRIVER_SRC_MATTER]
     /\ Z.abs (back - 120) <= 1)
  /\ (exists endpoint cluster attribute mask data dataType,
        events (update_matter_saturation Sample.healthy 50)
        = [WriteAttribute endpoint cluster attribute mask data dataType]
        /\ driver_calls (events (emberAfPostAttributeChangeCallback
             Sample.healthy endpoint cluster attribute mask 0 dataType 1
             (data, [])))
           = [app_driver_update_and_report_saturation 50
                APP_DRIVER_SRC_MATTER]).
Proof.
  apply (hue_and_saturation_echo Sample.healthy Sample.healthy 120 50 0 1 []);
    unfold HUE_MAX, SATURATION_MAX; lia.
Defined.

(** X14. Values in range convert to values in range, both ways, so that none
    of the 8-bit and 16-bit casts around [REMAP_TO_RANGE] cuts anything off: a
    wire value of 0 to 254 reaches the driver as a hue of 0 to 359 or a
    saturation of 0 to 100, and a hue of 0 to 359 or a saturation of 0 to 100
    is written as the remapped value itself, between 0 and 254. *)
Theorem conversions_stay_in_range
    (w : world) (endpoint mask manufacturer type size : Z)
    (wire hue saturation : Z) (more : list Z) :
  0 <= wire <= 254 ->
  0 <= hue <= HUE_MAX ->
  0 <= saturation <= SATURATION_MAX ->
  (exists local,
     driver_calls (events (emberAfPostAttributeChangeCallback w endpoint
       ZCL_COLOR_CONTROL_CLUSTER_ID ZCL_COLOR_CONTROL_CURRENT_HUE_ATTRIBUTE_ID
       mask manufacturer type size (wire, more)))
     = [app_driver_update_and_report_hue local APP_DRIVER_SRC_MATTER]
     /\ 0 <= local <= HUE_MAX)
  /\ (exists local,
        driver_calls (events (emberAfPostAttributeChangeCallback w endpoint
          ZCL_COLOR_CONTROL_CLUSTER_ID
          ZCL_COLOR_CONTROL_CURRENT_SATURATION_ATTRIBUTE_ID
          mask manufacturer type size (wire, more)))
        = [app_driver_update_and_report_saturation local APP_DRIVER_SRC_MATTER]
        /\ 0 <= local <= SATURATION_MAX)
  /\ written_data (events (update_matter_hue w hue))
     = [REMAP_TO_RANGE hue HUE_MAX HUE_ATTRIBUTE_MAX]
  /\ 0 <= REMAP_TO_RANGE hue HUE_MAX HUE_ATTRIBUTE_MAX <= 254
  /\ written_data (events (update_matter_saturation w saturation))
     = [REMAP_TO_RANGE saturation SATURATION_MAX SATURATION_ATTRIBUTE_MAX]
  /\ 0 <= REMAP_TO_RANGE saturation SATURATION_MAX SATURATION_ATTRIBUTE_MAX
     <= 254.
Proof.
  intros Hwire Hhue Hsat.
  pose proof (REMAP_TO_RANGE_bounds wire HUE_ATTRIBUTE_MAX HUE_MAX eq_refl
                ltac:(discriminate) Hwire) as Hlocal.
  pose proof (REMAP_TO_RANGE_bounds wire SATURATION_ATTRIBUTE_MAX
                SATURATION_MAX eq_refl ltac:(discriminate) Hwire) as Slocal.
  pose proof (REMAP_TO_RANGE_bounds hue HUE_MAX HUE_ATTRIBUTE_MAX eq_refl
                ltac:(discriminate) Hhue) as Hout.
  pose proof (REMAP_TO_RANGE_bounds saturation SATURATION_MAX
                SATURATION_ATTRIBUTE_MAX eq_refl ltac:(discriminate) Hsat)
    as Sout.
  assert (HUE_MAX = 359 /\ HUE_ATTRIBUTE_MAX = 254 /\ SATURATION_MAX = 100
          /\ SATURATION_ATTRIBUTE_MAX = 254) as (E1 & E2 & E3 & E4)
    by (repeat split).
  repeat split; try lia.
  - exists (REMAP_TO_RANGE wire HUE_ATTRIBUTE_MAX HUE_MAX).
    split; [|assumption].
    rewrite hue_driver_call. cbn [deref fst].
    rewrite (to_uint16_small wire) by lia.
    rewrite to_uint16_small by lia. reflexivity.
  - exists (REMAP_TO_RANGE wire SATURATION_ATTRIBUTE_MAX SATURATION_MAX).
    split; [|assumption].
    rewrite saturation_driver_call. cbn [deref fst].
    rewrite (to_uint16_small wire) by lia.
    rewrite to_uint8_small by lia. reflexivity.
  - rewrite update_matter_hue_run. cbn [written_data].
    rewrite to_uint8_small by lia. reflexivity.
  - rewrite update_matter_saturation_run. cbn [written_data].
    rewrite (to_uint16_small saturation) by lia.
    rewrite to_uint8_small by lia. reflexivity.
Qed.

Lemma conversions_stay_in_range_witness :
  written_data (events (update_matter_hue Sample.healthy 359))
  = [REMAP_TO_RANGE 359 HUE_MAX HUE_ATTRIBUTE_MAX]
  /\ written_data (events (update_matter_saturation Sample.healthy 100))
     = [REMAP_TO_RANGE 100 SATURATION_MAX SATURATION_ATTRIBUTE_MAX].
Proof.
  split;
    apply (conversions_stay_in_range Sample.healthy 1 0 0
             ZCL_INT8U_ATTRIBUTE_TYPE 1 254 359 100 []);
    unfold HUE_MAX, SATURATION_MAX; lia.
Defined.

(** ** The device event observer *)

(** X15. [on_device_event] starts the mDNS server at most once per event:
    once for a change of interface address, once for a change of Thread state
    in a Thread build only, and not at all for any other event; whatever the
    event, the last thing it does is to ask for the free heap size and log
    it. *)
Theorem on_device_event_starts_mdns_at_most_once
    (thread : bool) (free_heap : Z) (event_Type : PublicEventTypes) (arg : Z) :
  mdns_starts (on_device_event thread free_heap event_Type arg)
  = match event_Type with
    | kInterfaceIpAddressChanged => 1%nat
    | kThreadStateChange => if thread then 1%nat else 0%nat
    | kOtherEvent _ => 0%nat
    end
  /\ exists before,
       on_device_event thread free_heap event_Type arg
       = before
         ++ [heap_caps_get_free_size MALLOC_CAP_8BIT;
             Logged (ESP_LOG ESP_LOG_INFO "Current free heap: %zu" [free_heap])]
       /\ (List.length before <= 1)%nat.
Proof.
  split.
  - destruct event_Type, thread; reflexivity.
  - unfold on_device_event.
    destruct (PublicEventTypes_eqb event_Type kInterfaceIpAddressChanged) eqn:Hip;
      destruct thread;
      try destruct (PublicEventTypes_eqb event_Type kThreadStateChange) eqn:Hth;
      try (destruct event_Type; discriminate);
      eexists; (split; [reflexivity|cbn; lia]).
Qed.

(** ** What the driver call is determined by *)



